(** * Unit of Work registry of timrourke/datamapper

    A shallow embedding of the Go package [datamapper] and the proofs of
    its registration rules.  The repository holds three revisions of
    [unit_of_work.go]:

    - the [Entity] revision, with the helpers [assertEntityHasID] and
      [assertEntityNotRegisteredAs] and the operation [RegisterDeleted]
      (the revision [unit_of_work_test.go] exercises);
    - the [Model] revision with the helper [assertModelNotRegisteredAs]
      and the operation [RegisterRemoved];
    - the [Model] revision with every check written inline.

    Each revision is embedded in a module of its own, function by
    function.  A Go method on [*UnitOfWork] mutates the three maps of its
    receiver, returns an [error] (possibly [nil]) and may panic: it becomes
    a computation in a state monad over the registry whose result is
    either a returned value or a panic.

    The registry is one built by [NewUnitOfWork], so its three maps are
    allocated; an entity is a non-nil interface value whose [GetID] is a
    pure function of the reference.  A Go map is a [gmap] with [string]
    keys, a Go string being a sequence of bytes like Rocq's [string]. *)

From Stdlib Require Import Ascii String.
From stdpp Require Import gmap strings list fin_maps.

Local Open Scope string_scope.

(** ** Go strings and [fmt] *)

(** The double quote character, escaped with a backslash in the Go sources. *)
Definition dq : string := String "034"%char EmptyString.

(** [strings.HasPrefix]. *)
Fixpoint HasPrefix (s prefix : string) : bool :=
  match prefix, s with
  | EmptyString, _ => true
  | String c p, String d t => Ascii.eqb c d && HasPrefix t p
  | String _ _, EmptyString => false
  end.

(** [strings.Contains], which the tests use to inspect error messages. *)
Fixpoint Contains (s substr : string) : bool :=
  HasPrefix s substr ||
  match s with
  | EmptyString => false
  | String _ t => Contains t substr
  end.

(** What [fmt] prints for a verb whose operand is missing. *)
Definition missingArg : string := "%!v(MISSING)".

Definition nextArg (args : list string) : string * list string :=
  match args with
  | [] => (missingArg, [])
  | a :: rest => (a, rest)
  end.

(** [fmt.Sprintf] restricted to the two verbs the package uses, [%s] and
    [%+v].  Every operand is passed as the text [fmt] prints for it under
    its verb: a Go string as itself, an entity as [fmtPlusV] renders it. *)
Fixpoint Sprintf (format : string) (args : list string) : string :=
  match format with
  | EmptyString => EmptyString
  | String "%" (String "s" rest) =>
      let '(a, args') := nextArg args in a +:+ Sprintf rest args'
  | String "%" (String "+" (String "v" rest)) =>
      let '(a, args') := nextArg args in a +:+ Sprintf rest args'
  | String c rest => String c (Sprintf rest args)
  end.

(** An error built by [errors.Errorf(format, args...)]. *)
Record error : Type := Errorf { format : string; args : list string }.

(** The [Error()] method: the formatted message. *)
Definition Error (err : error) : string := Sprintf (format err) (args err).

(** The two kinds of error of the registry.  The package has no error
    types: the kind is read off the format string the error was built
    from. *)
Inductive ErrorKind : Type := MissingIdentity | ConflictingState.

Definition kindOf (err : error) : option ErrorKind :=
  if Contains (format err) "has no ID" then Some MissingIdentity
  else if Contains (format err) "is already registered as" then Some ConflictingState
  else None.

(** ** Computations: state, return value, panic *)

Inductive result (A : Type) : Type :=
  | Returned (a : A)
  | Panicked (msg : string).
Arguments Returned {A} a.
Arguments Panicked {A} msg.

Definition Go (S A : Type) : Type := S -> result (A * S).

Definition ret {S A : Type} (a : A) : Go S A := fun s => Returned (a, s).

Definition bind {S A B : Type} (m : Go S A) (k : A -> Go S B) : Go S B :=
  fun s =>
    match m s with
    | Returned (a, s') => k a s'
    | Panicked msg => Panicked msg
    end.

Definition panic {S A : Type} (msg : string) : Go S A := fun _ => Panicked msg.

Definition gets {S A : Type} (f : S -> A) : Go S A := fun s => Returned (f s, s).

Definition modify {S : Type} (f : S -> S) : Go S unit := fun s => Returned (tt, f s).

Declare Scope go_scope.
Delimit Scope go_scope with go.
Notation "x <- c ;; k" := (bind c (fun x => k))
  (at level 100, c at next level, right associativity) : go_scope.
Notation "c ;;; k" := (bind c (fun _ => k))
  (at level 100, right associativity) : go_scope.
(** [if err := c; err != nil { return err }] followed by [k]. *)
Notation "'check!' c ;; k" :=
  (bind c (fun err => match err with Some e => ret (Some e) | None => k end))
  (at level 100, c at next level, right associativity) : go_scope.

(** The [ok] of [_, ok := m[k]]. *)
Definition hasKey {V : Type} (m : gmap string V) (k : string) : bool :=
  match m !! k with
  | Some _ => true
  | None => false
  end.

(** ** Entities *)

(** The [Entity] (formerly [Model]) interface.  A value of type [E] is an
    entity reference; [GetID] is the interface's only method and
    [fmtPlusV] is what [fmt] prints for the reference under [%+v]. *)
Class Entity (E : Type) : Type := {
  GetID : E -> string;
  fmtPlusV : E -> string
}.

(** The stub of the test file: a [*EntityStub], that is the address of a
    struct and the [id] field of that struct. *)
Record EntityStub : Type := { addr : N; id : string }.

#[export] Instance EntityStub_Entity : Entity EntityStub := {
  GetID m := id m;
  fmtPlusV m := "&{id:" +:+ id m +:+ "}"
}.

(** ** The [Entity] revision *)

Module Current.
Section WithEntity.
Context {E : Type} `{Entity E}.
Local Open Scope go_scope.

Record UnitOfWork : Type := {
  newObjects : gmap string E;
  dirtyObjects : gmap string E;
  deletedObjects : gmap string E
}.

Definition NewUnitOfWork : UnitOfWork :=
  {| newObjects := ∅; dirtyObjects := ∅; deletedObjects := ∅ |}.

(** Assignments to the map fields of the receiver. *)
Definition updNew (f : gmap string E -> gmap string E) (unit : UnitOfWork) : UnitOfWork :=
  {| newObjects := f (newObjects unit);
     dirtyObjects := dirtyObjects unit;
     deletedObjects := deletedObjects unit |}.

Definition updDirty (f : gmap string E -> gmap string E) (unit : UnitOfWork) : UnitOfWork :=
  {| newObjects := newObjects unit;
     dirtyObjects := f (dirtyObjects unit);
     deletedObjects := deletedObjects unit |}.

Definition updDeleted (f : gmap string E -> gmap string E) (unit : UnitOfWork) : UnitOfWork :=
  {| newObjects := newObjects unit;
     dirtyObjects := dirtyObjects unit;
     deletedObjects := f (deletedObjects unit) |}.

Definition assertEntityHasID (entity : E) : Go UnitOfWork (option error) :=
  if String.eqb (GetID entity) "" then
    ret (Some (Errorf "Registering entity failed: entity has no ID: %+v"
                      [fmtPlusV entity]))
  else ret None.

Definition assertEntityNotRegisteredAs (entity : E) (registeredAs : string)
  : Go UnitOfWork (option error) :=
  registry <-
    (if String.eqb registeredAs "dirty" then gets dirtyObjects
     else if String.eqb registeredAs "deleted" then gets deletedObjects
     else if String.eqb registeredAs "new" then gets newObjects
     else panic (Sprintf ("unknown registry for state of persistence: "
                          +:+ dq +:+ "%s" +:+ dq) [registeredAs])) ;;
  let entityAlreadyRegistered := hasKey registry (GetID entity) in
  if entityAlreadyRegistered then
    ret (Some (Errorf ("Registering entity failed: entity with ID " +:+ dq +:+ "%s"
                       +:+ dq +:+ " is already registered as %s")
                      [GetID entity; registeredAs]))
  else ret None.

Definition RegisterNew (entity : E) : Go UnitOfWork (option error) :=
  check! assertEntityHasID entity ;;
  check! assertEntityNotRegisteredAs entity "dirty" ;;
  check! assertEntityNotRegisteredAs entity "deleted" ;;
  check! assertEntityNotRegisteredAs entity "new" ;;
  modify (updNew <[GetID entity := entity]>) ;;;
  ret None.

Definition RegisterDirty (entity : E) : Go UnitOfWork (option error) :=
  check! assertEntityHasID entity ;;
  check! assertEntityNotRegisteredAs entity "deleted" ;;
  entityIsAlreadyDirty <- gets (fun unit => hasKey (newObjects unit) (GetID entity)) ;;
  (if negb entityIsAlreadyDirty
   then modify (updDirty <[GetID entity := entity]>)
   else ret tt) ;;;
  ret None.

Definition RegisterDeleted (entity : E) : Go UnitOfWork (option error) :=
  check! assertEntityHasID entity ;;
  entityIsAlreadyNew <- gets (fun unit => hasKey (newObjects unit) (GetID entity)) ;;
  if entityIsAlreadyNew then
    modify (updNew (delete (GetID entity))) ;;;
    ret None
  else
    modify (updDirty (delete (GetID entity))) ;;;
    entityIsAlreadyDeleted <-
      gets (fun unit => hasKey (deletedObjects unit) (GetID entity)) ;;
    (if negb entityIsAlreadyDeleted
     then modify (updDeleted <[GetID entity := entity]>)
     else ret tt) ;;;
    ret None.

End WithEntity.
Arguments UnitOfWork E : clear implicits.
End Current.

(** ** The [Model] revision with [assertModelNotRegisteredAs] *)

Module ModelHelper.
Section WithModel.
Context {E : Type} `{Entity E}.
Local Open Scope go_scope.

Record UnitOfWork : Type := {
  newObjects : gmap string E;
  dirtyObjects : gmap string E;
  removedObjects : gmap string E
}.

Definition NewUnitOfWork : UnitOfWork :=
  {| newObjects := ∅; dirtyObjects := ∅; removedObjects := ∅ |}.

Definition updNew (f : gmap string E -> gmap string E) (unit : UnitOfWork) : UnitOfWork :=
  {| newObjects := f (newObjects unit);
     dirtyObjects := dirtyObjects unit;
     removedObjects := removedObjects unit |}.

Definition updDirty (f : gmap string E -> gmap string E) (unit : UnitOfWork) : UnitOfWork :=
  {| newObjects := newObjects unit;
     dirtyObjects := f (dirtyObjects unit);
     removedObjects := removedObjects unit |}.

Definition updRemoved (f : gmap string E -> gmap string E) (unit : UnitOfWork) : UnitOfWork :=
  {| newObjects := newObjects unit;
     dirtyObjects := dirtyObjects unit;
     removedObjects := f (removedObjects unit) |}.

Definition assertModelNotRegisteredAs (model : E) (registeredAs : string)
  : Go UnitOfWork (option error) :=
  registry <-
    (if String.eqb registeredAs "dirty" then gets dirtyObjects
     else if String.eqb registeredAs "removed" then gets removedObjects
     else if String.eqb registeredAs "new" then gets newObjects
     else panic (Sprintf ("unknown registry for state of persistence: "
                          +:+ dq +:+ "%s" +:+ dq) [registeredAs])) ;;
  let modelAlreadyRegistered := hasKey registry (GetID model) in
  if modelAlreadyRegistered then
    ret (Some (Errorf ("Registering model failed: model with ID " +:+ dq +:+ "%s"
                       +:+ dq +:+ " is already registered as %s")
                      [GetID model; registeredAs]))
  else ret None.

Definition RegisterNew (model : E) : Go UnitOfWork (option error) :=
  if String.eqb (GetID model) "" then
    ret (Some (Errorf "Registering new model failed: model has no ID: %+v"
                      [fmtPlusV model]))
  else
  check! assertModelNotRegisteredAs model "dirty" ;;
  check! assertModelNotRegisteredAs model "removed" ;;
  check! assertModelNotRegisteredAs model "new" ;;
  modify (updNew <[GetID model := model]>) ;;;
  ret None.

Definition RegisterDirty (model : E) : Go UnitOfWork (option error) :=
  if String.eqb (GetID model) "" then
    ret (Some (Errorf "Registering new model failed: model has no ID: %+v"
                      [fmtPlusV model]))
  else
  check! assertModelNotRegisteredAs model "removed" ;;
  modelIsAlreadyDirty <- gets (fun unit => hasKey (newObjects unit) (GetID model)) ;;
  (if negb modelIsAlreadyDirty
   then modify (updDirty <[GetID model := model]>)
   else ret tt) ;;;
  ret None.

Definition RegisterRemoved (model : E) : Go UnitOfWork (option error) :=
  if String.eqb (GetID model) "" then
    ret (Some (Errorf "Registering removed model failed: model has no ID: %+v"
                      [fmtPlusV model]))
  else
  modelIsAlreadyNew <- gets (fun unit => hasKey (newObjects unit) (GetID model)) ;;
  if modelIsAlreadyNew then
    modify (updNew (delete (GetID model))) ;;;
    ret None
  else
    modify (updDirty (delete (GetID model))) ;;;
    modelIsAlreadyRemoved <-
      gets (fun unit => hasKey (removedObjects unit) (GetID model)) ;;
    (if negb modelIsAlreadyRemoved
     then modify (updRemoved <[GetID model := model]>)
     else ret tt) ;;;
    ret None.

End WithModel.
Arguments UnitOfWork E : clear implicits.
End ModelHelper.

(** ** The [Model] revision with inline checks ([unit_of_work.go]) *)

Module ModelInline.
Section WithModel.
Context {E : Type} `{Entity E}.
Local Open Scope go_scope.

Record UnitOfWork : Type := {
  newObjects : gmap string E;
  dirtyObjects : gmap string E;
  removedObjects : gmap string E
}.

Definition NewUnitOfWork : UnitOfWork :=
  {| newObjects := ∅; dirtyObjects := ∅; removedObjects := ∅ |}.

Definition updNew (f : gmap string E -> gmap string E) (unit : UnitOfWork) : UnitOfWork :=
  {| newObjects := f (newObjects unit);
     dirtyObjects := dirtyObjects unit;
     removedObjects := removedObjects unit |}.

Definition updDirty (f : gmap string E -> gmap string E) (unit : UnitOfWork) : UnitOfWork :=
  {| newObjects := newObjects unit;
     dirtyObjects := f (dirtyObjects unit);
     removedObjects := removedObjects unit |}.

Definition updRemoved (f : gmap string E -> gmap string E) (unit : UnitOfWork) : UnitOfWork :=
  {| newObjects := newObjects unit;
     dirtyObjects := dirtyObjects unit;
     removedObjects := f (removedObjects unit) |}.

Definition RegisterNew (model : E) : Go UnitOfWork (option error) :=
  if String.eqb (GetID model) "" then
    ret (Some (Errorf "Registering new model failed: model has no ID: %+v"
                      [fmtPlusV model]))
  else
  modelIsDirty <- gets (fun unit => hasKey (dirtyObjects unit) (GetID model)) ;;
  if modelIsDirty then
    ret (Some (Errorf ("Registering new model failed: model with ID " +:+ dq +:+ "%s"
                       +:+ dq +:+ " is already registered as dirty")
                      [GetID model]))
  else
  modelIsRemoved <- gets (fun unit => hasKey (removedObjects unit) (GetID model)) ;;
  if modelIsRemoved then
    ret (Some (Errorf ("Registering new model failed: model with ID " +:+ dq +:+ "%s"
                       +:+ dq +:+ " is already registered as removed")
                      [GetID model]))
  else
  modelIsAlreadyNew <- gets (fun unit => hasKey (newObjects unit) (GetID model)) ;;
  if modelIsAlreadyNew then
    ret (Some (Errorf ("Registering new model failed: model with ID " +:+ dq +:+ "%s"
                       +:+ dq +:+ " is already registered as new")
                      [GetID model]))
  else
  modify (updNew <[GetID model := model]>) ;;;
  ret None.

Definition RegisterDirty (model : E) : Go UnitOfWork (option error) :=
  if String.eqb (GetID model) "" then
    ret (Some (Errorf "Registering new model failed: model has no ID: %+v"
                      [fmtPlusV model]))
  else
  modelIsRemoved <- gets (fun unit => hasKey (removedObjects unit) (GetID model)) ;;
  if modelIsRemoved then
    ret (Some (Errorf ("Registering dirty model failed: model with ID " +:+ dq +:+ "%s"
                       +:+ dq +:+ " is already registered as removed")
                      [GetID model]))
  else
  modelIsAlreadyDirty <- gets (fun unit => hasKey (newObjects unit) (GetID model)) ;;
  (if negb modelIsAlreadyDirty
   then modify (updDirty <[GetID model := model]>)
   else ret tt) ;;;
  ret None.

Definition RegisterRemoved (model : E) : Go UnitOfWork (option error) :=
  if String.eqb (GetID model) "" then
    ret (Some (Errorf "Registering removed model failed: model has no ID: %+v"
                      [fmtPlusV model]))
  else
  modelIsAlreadyNew <- gets (fun unit => hasKey (newObjects unit) (GetID model)) ;;
  if modelIsAlreadyNew then
    modify (updNew (delete (GetID model))) ;;;
    ret None
  else
    modify (updDirty (delete (GetID model))) ;;;
    modelIsAlreadyRemoved <-
      gets (fun unit => hasKey (removedObjects unit) (GetID model)) ;;
    (if negb modelIsAlreadyRemoved
     then modify (updRemoved <[GetID model := model]>)
     else ret tt) ;;;
    ret None.

End WithModel.
Arguments UnitOfWork E : clear implicits.
End ModelInline.

(** ** The three revisions behind one interface *)

Import Current.

Inductive Revision : Type := EntityRev | ModelHelperRev | ModelInlineRev.

Inductive Operation : Type := OpNew | OpDirty | OpDeleted.

(** The three mappings of a registry. *)
Inductive Category : Type := New | Dirty | Deleted.

Section Registry.
Context {E : Type} `{Entity E}.

(** The registries of the [Model] revisions name their third map
    [removedObjects]; it is read here as [deletedObjects]. *)
Definition toModelHelper (u : UnitOfWork E) : ModelHelper.UnitOfWork E :=
  {| ModelHelper.newObjects := newObjects u;
     ModelHelper.dirtyObjects := dirtyObjects u;
     ModelHelper.removedObjects := deletedObjects u |}.

Definition ofModelHelper (u : ModelHelper.UnitOfWork E) : UnitOfWork E :=
  {| newObjects := ModelHelper.newObjects u;
     dirtyObjects := ModelHelper.dirtyObjects u;
     deletedObjects := ModelHelper.removedObjects u |}.

Definition toModelInline (u : UnitOfWork E) : ModelInline.UnitOfWork E :=
  {| ModelInline.newObjects := newObjects u;
     ModelInline.dirtyObjects := dirtyObjects u;
     ModelInline.removedObjects := deletedObjects u |}.

Definition ofModelInline (u : ModelInline.UnitOfWork E) : UnitOfWork E :=
  {| newObjects := ModelInline.newObjects u;
     dirtyObjects := ModelInline.dirtyObjects u;
     deletedObjects := ModelInline.removedObjects u |}.

(** Runs a computation over a registry of type [S] on a [UnitOfWork]. *)
Definition via {S A : Type} (into : UnitOfWork E -> S) (back : S -> UnitOfWork E)
  (m : Go S A) : Go (UnitOfWork E) A :=
  fun u =>
    match m (into u) with
    | Returned (a, s) => Returned (a, back s)
    | Panicked msg => Panicked msg
    end.

(** [register r op entity u]: the registration [op] of revision [r]
    called with [entity] on the registry [u]. *)
Definition register (r : Revision) (op : Operation) (entity : E)
  : Go (UnitOfWork E) (option error) :=
  match r, op with
  | EntityRev, OpNew => RegisterNew entity
  | EntityRev, OpDirty => RegisterDirty entity
  | EntityRev, OpDeleted => RegisterDeleted entity
  | ModelHelperRev, OpNew =>
      via toModelHelper ofModelHelper (ModelHelper.RegisterNew entity)
  | ModelHelperRev, OpDirty =>
      via toModelHelper ofModelHelper (ModelHelper.RegisterDirty entity)
  | ModelHelperRev, OpDeleted =>
      via toModelHelper ofModelHelper (ModelHelper.RegisterRemoved entity)
  | ModelInlineRev, OpNew =>
      via toModelInline ofModelInline (ModelInline.RegisterNew entity)
  | ModelInlineRev, OpDirty =>
      via toModelInline ofModelInline (ModelInline.RegisterDirty entity)
  | ModelInlineRev, OpDeleted =>
      via toModelInline ofModelInline (ModelInline.RegisterRemoved entity)
  end.

(** The word a revision uses for a category, in the names its
    validation helper accepts and in its messages. *)
Definition categoryName (r : Revision) (c : Category) : string :=
  match c, r with
  | New, _ => "new"
  | Dirty, _ => "dirty"
  | Deleted, EntityRev => "deleted"
  | Deleted, _ => "removed"
  end.

Definition mapping (c : Category) (u : UnitOfWork E) : gmap string E :=
  match c with
  | New => newObjects u
  | Dirty => dirtyObjects u
  | Deleted => deletedObjects u
  end.

(** Whether the identity [k] is registered in category [c]. *)
Definition registeredAs (u : UnitOfWork E) (c : Category) (k : string) : bool :=
  hasKey (mapping c u) k.

(** In how many of the three mappings the identity [k] appears. *)
Definition occurrences (u : UnitOfWork E) (k : string) : nat :=
  Nat.b2n (registeredAs u New k) + Nat.b2n (registeredAs u Dirty k)
  + Nat.b2n (registeredAs u Deleted k).

(** The central invariant: no identity is in two mappings. *)
Definition exclusive (u : UnitOfWork E) : Prop :=
  forall k : string, occurrences u k <= 1.

(** Registries reachable from the empty one by calls of revision [r],
    whatever they return. *)
Inductive reachable (r : Revision) : UnitOfWork E -> Prop :=
  | reachable_new : reachable r NewUnitOfWork
  | reachable_step (op : Operation) (entity : E) (u u' : UnitOfWork E)
      (err : option error) :
      reachable r u ->
      register r op entity u = Returned (err, u') ->
      reachable r u'.

(** The conceptual state of one identity. *)
Inductive IdState : Type := StAbsent | StNew | StDirty | StDeleted.

Definition stateOf (u : UnitOfWork E) (k : string) : option IdState :=
  match registeredAs u New k, registeredAs u Dirty k, registeredAs u Deleted k with
  | false, false, false => Some StAbsent
  | true, false, false => Some StNew
  | false, true, false => Some StDirty
  | false, false, true => Some StDeleted
  | _, _, _ => None
  end.

Definition isKind (k : ErrorKind) (err : option error) : Prop :=
  exists e, err = Some e /\ kindOf e = Some k.

Definition mentions (err : option error) (text : string) : Prop :=
  exists e, err = Some e /\ Contains (Error e) text = true.

(** The registry an accepted call leaves, written as one update of the
    three maps; [register_outcome] below proves that the calls of the three
    revisions compute it. *)
Definition effect (op : Operation) (e : E) (u : UnitOfWork E) : UnitOfWork E :=
  let k := GetID e in
  match op with
  | OpNew => updNew <[k := e]> u
  | OpDirty => if registeredAs u New k then u else updDirty <[k := e]> u
  | OpDeleted =>
      if registeredAs u New k then updNew (delete k) u
      else if registeredAs u Deleted k then updDirty (delete k) u
      else updDeleted <[k := e]> (updDirty (delete k) u)
  end.

(** Whether a call is rejected, with which kind of error and, for a
    conflict, because of which category; proved of the three revisions in
    [register_outcome]. *)
Definition rejection (op : Operation) (u : UnitOfWork E) (k : string)
  : option (ErrorKind * option Category) :=
  if String.eqb k "" then Some (MissingIdentity, None)
  else match op with
       | OpNew =>
           if registeredAs u Dirty k then Some (ConflictingState, Some Dirty)
           else if registeredAs u Deleted k then Some (ConflictingState, Some Deleted)
           else if registeredAs u New k then Some (ConflictingState, Some New)
           else None
       | OpDirty =>
           if registeredAs u Deleted k then Some (ConflictingState, Some Deleted)
           else None
       | OpDeleted => None
       end.


(** Every entry is stored under the identity of its entity, and that
    identity is not the empty string. *)
Definition keyedByIdentity (u : UnitOfWork E) : Prop :=
  forall (c : Category) (k : string) (v : E),
    mapping c u !! k = Some v -> GetID v = k /\ k <> "".

(** The state machine of one identity, read off the three operations:
    the state an accepted call leads to, [None] for a call that is
    rejected with a conflict. *)
Definition transition (st : IdState) (op : Operation) : option IdState :=
  match st, op with
  | StAbsent, OpNew => Some StNew
  | StAbsent, OpDirty => Some StDirty
  | StAbsent, OpDeleted => Some StDeleted
  | StNew, OpNew => None
  | StNew, OpDirty => Some StNew
  | StNew, OpDeleted => Some StAbsent
  | StDirty, OpNew => None
  | StDirty, OpDirty => Some StDirty
  | StDirty, OpDeleted => Some StDeleted
  | StDeleted, OpNew => None
  | StDeleted, OpDirty => None
  | StDeleted, OpDeleted => Some StDeleted
  end.

(** The registry a call leaves: the one [effect] gives when the call is
    accepted, the one it was given when it is rejected. *)
Definition after (op : Operation) (e : E) (u : UnitOfWork E) : UnitOfWork E :=
  match rejection op u (GetID e) with
  | None => effect op e u
  | Some _ => u
  end.

End Registry.

(** ** The registries of the test file *)

Definition e5 : EntityStub := {| addr := 1; id := "5" |}.

(** Another reference with the same identity. *)
Definition e5' : EntityStub := {| addr := 2; id := "5" |}.

Definition e7 : EntityStub := {| addr := 3; id := "7" |}.

(** [&EntityStub{}]: the identity is the empty string. *)
Definition e0 : EntityStub := {| addr := 4; id := "" |}.

Definition new5 : UnitOfWork EntityStub :=
  {| newObjects := {["5" := e5]}; dirtyObjects := ∅; deletedObjects := ∅ |}.

Definition dirty5 : UnitOfWork EntityStub :=
  {| newObjects := ∅; dirtyObjects := {["5" := e5]}; deletedObjects := ∅ |}.

Definition deleted5 : UnitOfWork EntityStub :=
  {| newObjects := ∅; dirtyObjects := ∅; deletedObjects := {["5" := e5]} |}.

Definition dirty7 : UnitOfWork EntityStub :=
  {| newObjects := ∅; dirtyObjects := {["7" := e7]}; deletedObjects := ∅ |}.

Definition deleted7 : UnitOfWork EntityStub :=
  {| newObjects := ∅; dirtyObjects := ∅; deletedObjects := {["7" := e7]} |}.

(** ** Proofs *)

Section Proofs.
Context {E : Type} `{Entity E}.

Lemma Contains_String c s sub : Contains s sub = true -> Contains (String c s) sub = true.
Proof. intros Hs. cbn [Contains]. rewrite Hs. apply orb_true_r. Qed.

Lemma Contains_append p s sub : Contains s sub = true -> Contains (p +:+ s) sub = true.
Proof. intros Hs. induction p as [|c p IH]; [exact Hs|]. now apply Contains_String. Qed.

Ltac message_contains :=
  unfold Error;
  cbn [Sprintf format args nextArg dq String.append categoryName];
  repeat apply Contains_String;
  apply Contains_append;
  vm_compute; reflexivity.

Ltac unfold_registrations :=
  unfold register, via, RegisterNew, RegisterDirty, RegisterDeleted,
    ModelHelper.RegisterNew, ModelHelper.RegisterDirty, ModelHelper.RegisterRemoved,
    ModelInline.RegisterNew, ModelInline.RegisterDirty, ModelInline.RegisterRemoved,
    assertEntityHasID, assertEntityNotRegisteredAs,
    ModelHelper.assertModelNotRegisteredAs, bind, ret, gets, modify.

Ltac case_hasKey :=
  repeat match goal with
         | |- context [hasKey ?m ?k] => destruct (hasKey m k) eqn:?; cbn
         end.

Lemma register_outcome r op e u :
  match rejection op u (GetID e) with
  | Some (kind, c) =>
      exists err, register r op e u = Returned (Some err, u) /\
        kindOf err = Some kind /\
        forall cat, c = Some cat ->
          Contains (Error err) ("already registered as " +:+ categoryName r cat) = true
  | None => register r op e u = Returned (None, effect op e u)
  end.
Proof.
  unfold rejection, effect, registeredAs, mapping.
  destruct u as [n d x].
  destruct r, op; unfold_registrations.
  all: destruct (String.eqb (GetID e) "") eqn:Hid; cbn.
  all: case_hasKey.
  all: try reflexivity.
  all: eexists; split; [reflexivity|]; split; [vm_compute; reflexivity|].
  all: intros cat [= <-]; message_contains.
Qed.

(** *** Lookups after an assignment or a [delete] *)

Lemma hasKey_insert_eq (m : gmap string E) k v : hasKey (<[k := v]> m) k = true.
Proof. unfold hasKey. now rewrite lookup_insert_eq. Qed.

Lemma hasKey_insert_ne (m : gmap string E) k k' v :
  k <> k' -> hasKey (<[k := v]> m) k' = hasKey m k'.
Proof. intros Hne. unfold hasKey. now rewrite lookup_insert_ne. Qed.

Lemma hasKey_delete_eq (m : gmap string E) k : hasKey (delete k m) k = false.
Proof. unfold hasKey. now rewrite lookup_delete_eq. Qed.

Lemma hasKey_delete_ne (m : gmap string E) k k' :
  k <> k' -> hasKey (delete k m) k' = hasKey m k'.
Proof. intros Hne. unfold hasKey. now rewrite lookup_delete_ne. Qed.

Lemma hasKey_false (m : gmap string E) k : hasKey m k = false <-> m !! k = None.
Proof. unfold hasKey. destruct (m !! k); split; congruence. Qed.

Lemma hasKey_dom (m : gmap string E) k : hasKey m k = true <-> k ∈ dom m.
Proof.
  rewrite elem_of_dom. unfold hasKey.
  destruct (m !! k); split; try congruence; eauto.
  intros [x Hx]. discriminate.
Qed.

Lemma delete_absent (m : gmap string E) k : hasKey m k = false -> delete k m = m.
Proof. intros Hk. apply delete_id. now apply hasKey_false. Qed.

(** *** What a call returns *)

(** Every call returns, and its error and final registry are those
    [rejection] and [effect] describe. *)
Lemma register_returns r op e u :
  exists err u', register r op e u = Returned (err, u') /\
    match rejection op u (GetID e) with
    | Some (kind, c) =>
        u' = u /\ exists x, err = Some x /\ kindOf x = Some kind /\
          forall cat, c = Some cat ->
            Contains (Error x) ("already registered as " +:+ categoryName r cat) = true
    | None => err = None /\ u' = effect op e u
    end.
Proof.
  pose proof (register_outcome r op e u) as Ho.
  destruct (rejection op u (GetID e)) as [[kind c]|].
  - destruct Ho as (x & Hrun & Hkind & Hmsg). exists (Some x), u. eauto 8.
  - exists None, (effect op e u). auto.
Qed.

(** Keys other than the entity's identity are out of reach of [effect]. *)
Lemma effect_frame op e u c k :
  k <> GetID e -> mapping c (effect op e u) !! k = mapping c u !! k.
Proof.
  intros Hne. unfold effect, registeredAs.
  destruct op, c; cbn;
    repeat match goal with
           | |- context [hasKey ?m ?x] => destruct (hasKey m x); cbn
           end;
    rewrite ?lookup_insert_ne, ?lookup_delete_ne by congruence; reflexivity.
Qed.

Lemma occurrences_frame op e u k :
  k <> GetID e -> occurrences (effect op e u) k = occurrences u k.
Proof.
  intros Hne. unfold occurrences, registeredAs, hasKey.
  now rewrite !effect_frame.
Qed.

(** The number of mappings holding the entity's identity after an
    accepted call. *)
Lemma occurrences_effect op e u :
  rejection op u (GetID e) = None ->
  occurrences (effect op e u) (GetID e) =
    match op with
    | OpNew => 1
    | OpDirty => if registeredAs u New (GetID e) then occurrences u (GetID e) else 1
    | OpDeleted =>
        if registeredAs u New (GetID e)
        then occurrences u (GetID e) - 1
        else 1
    end.
Proof.
  unfold rejection, effect, occurrences, registeredAs.
  destruct (String.eqb (GetID e) ""); [discriminate|].
  destruct u as [n d x].
  destruct op; cbn;
    destruct (hasKey n (GetID e)) eqn:Hn, (hasKey d (GetID e)) eqn:Hd,
      (hasKey x (GetID e)) eqn:Hx;
    try discriminate; intros _; cbn;
    rewrite ?hasKey_insert_eq, ?hasKey_delete_eq, ?Hn, ?Hd, ?Hx; reflexivity.
Qed.

Lemma exclusive_NewUnitOfWork : exclusive (NewUnitOfWork (E := E)).
Proof.
  intros k. unfold occurrences, registeredAs, hasKey. cbn.
  rewrite lookup_empty. cbn. lia.
Qed.

Lemma exclusive_effect op e u :
  rejection op u (GetID e) = None -> exclusive u -> exclusive (effect op e u).
Proof.
  intros Hrej Hu k. destruct (decide (k = GetID e)) as [->|Hne].
  - rewrite occurrences_effect by assumption. specialize (Hu (GetID e)).
    destruct op; repeat case_match; lia.
  - rewrite occurrences_frame by assumption. apply Hu.
Qed.

Lemma rejection_empty op (u : UnitOfWork E) : rejection op u "" = Some (MissingIdentity, None).
Proof. reflexivity. Qed.

Lemma rejection_nonempty op (u : UnitOfWork E) k :
  k <> "" ->
  rejection op u k =
    match op with
    | OpNew =>
        if registeredAs u Dirty k then Some (ConflictingState, Some Dirty)
        else if registeredAs u Deleted k then Some (ConflictingState, Some Deleted)
        else if registeredAs u New k then Some (ConflictingState, Some New)
        else None
    | OpDirty =>
        if registeredAs u Deleted k then Some (ConflictingState, Some Deleted)
        else None
    | OpDeleted => None
    end.
Proof.
  intros Hk. unfold rejection.
  destruct (String.eqb_spec k ""); [contradiction|reflexivity].
Qed.

(** Splits on the identity being empty and on the three lookups, and
    replaces the call by what [register_returns] says it returns. *)
Ltac by_outcome r op e u err u' :=
  let Hrun := fresh "Hrun" in
  let Hout := fresh "Hout" in
  let Hid := fresh "Hid" in
  destruct (register_returns r op e u) as (err & u' & Hrun & Hout);
  exists err, u'; split; [exact Hrun|];
  destruct (String.eqb_spec (GetID e) "") as [Hid|Hid];
  [ rewrite Hid in Hout |- *; rewrite rejection_empty in Hout
  | rewrite (rejection_nonempty op u _ Hid) in Hout ];
  destruct (registeredAs u New (GetID e)) eqn:?,
    (registeredAs u Dirty (GetID e)) eqn:?,
    (registeredAs u Deleted (GetID e)) eqn:?;
  cbn in Hout.

(** *** The claims *)

(** C1. In every registry reachable from the empty one by calls of
    [RegisterNew], [RegisterDirty] and [RegisterDeleted]/[RegisterRemoved],
    accepted or rejected, each identity is in at most one of the three
    mappings; and each of the three operations, called on a registry with
    that property, returns and leaves a registry with that property. *)
Theorem C1_at_most_one_mapping (r : Revision) :
  (forall u : UnitOfWork E, reachable r u -> exclusive u) /\
  (forall (op : Operation) (e : E) (u : UnitOfWork E),
     exclusive u ->
     exists err u', register r op e u = Returned (err, u') /\ exclusive u').
Proof.
  assert (Hstep : forall op e u, exclusive u ->
            exists err u', register r op e u = Returned (err, u') /\ exclusive u').
  { intros op e u Hu.
    destruct (register_returns r op e u) as (err & u' & Hrun & Hout).
    exists err, u'. split; [exact Hrun|].
    destruct (rejection op u (GetID e)) as [[kind c]|] eqn:Hrej.
    - destruct Hout as [-> _]. exact Hu.
    - destruct Hout as [_ ->]. now apply exclusive_effect. }
  split; [|exact Hstep].
  induction 1 as [|op e u u' err _ IH Hrun].
  - apply exclusive_NewUnitOfWork.
  - destruct (Hstep op e u IH) as (err0 & u0 & Hrun0 & Hu0).
    rewrite Hrun in Hrun0. now injection Hrun0 as _ <-.
Qed.


Ltac split_outcome :=
  repeat match goal with
         | Ho : _ /\ _ |- _ => destruct Ho
         | Ho : exists _, _ |- _ => destruct Ho
         end; subst.

(** C3. For an entity with a non-empty identity [RegisterDeleted]
    ([RegisterRemoved]) returns no error.  If the identity is in the new
    mapping it is deleted from it and the other two mappings are left as
    they are; otherwise the identity is deleted from the dirty mapping and
    the entity is stored in the deleted mapping, unless that mapping
    already has the identity, in which case it keeps its entry. *)
Theorem C3_RegisterDeleted (r : Revision) (e : E) (u : UnitOfWork E)
  (Hid : GetID e <> "") :
  exists u', register r OpDeleted e u = Returned (None, u') /\
    (registeredAs u New (GetID e) = true ->
       newObjects u' = delete (GetID e) (newObjects u) /\
       dirtyObjects u' = dirtyObjects u /\
       deletedObjects u' = deletedObjects u) /\
    (registeredAs u New (GetID e) = false ->
       newObjects u' = newObjects u /\
       dirtyObjects u' = delete (GetID e) (dirtyObjects u) /\
       deletedObjects u' =
         if registeredAs u Deleted (GetID e) then deletedObjects u
         else <[GetID e := e]> (deletedObjects u)).
Proof.
  destruct (register_returns r OpDeleted e u) as (err & u' & Hrun & Hout).
  rewrite (rejection_nonempty _ _ _ Hid) in Hout. destruct Hout as [-> ->].
  exists (effect OpDeleted e u). split; [exact Hrun|].
  unfold effect.
  destruct (registeredAs u New (GetID e)), (registeredAs u Deleted (GetID e));
    cbn; repeat split; intros; congruence.
Qed.

(** C4. [RegisterDirty] is rejected exactly when the identity is empty
    ([MissingIdentity]) or in the deleted mapping ([ConflictingState]).
    When it is accepted and the identity is in the new mapping the
    registry is left as it was; when it is accepted and the identity is
    not in the new mapping the entity is stored in the dirty mapping under
    its identity, whatever was there, and the other two mappings are left
    as they were. *)
Theorem C4_RegisterDirty (r : Revision) (e : E) (u : UnitOfWork E) :
  exists err u', register r OpDirty e u = Returned (err, u') /\
    (err <> None <-> GetID e = "" \/ registeredAs u Deleted (GetID e) = true) /\
    (GetID e = "" -> isKind MissingIdentity err) /\
    (GetID e <> "" -> registeredAs u Deleted (GetID e) = true ->
       isKind ConflictingState err /\
       mentions err ("already registered as " +:+ categoryName r Deleted)) /\
    (err = None -> registeredAs u New (GetID e) = true -> u' = u) /\
    (err = None -> registeredAs u New (GetID e) = false ->
       newObjects u' = newObjects u /\
       dirtyObjects u' = <[GetID e := e]> (dirtyObjects u) /\
       deletedObjects u' = deletedObjects u).
Proof.
  by_outcome r OpDirty e u err u'.
  all: split_outcome; unfold isKind, mentions, effect.
  all: repeat match goal with
         | Hb : registeredAs _ _ _ = _ |- _ => rewrite Hb
         end.
  all: repeat split; intros; try congruence; try tauto; eauto 6.
  all: try (eexists; split; [reflexivity|]; match goal with
            | Hm : forall cat, _ -> Contains _ _ = true |- _ => now apply (Hm _ eq_refl)
            end).
  all: intuition congruence.
Qed.

(** C5. A registration that returns an error leaves the three mappings
    as they were, and every registration of an entity whose identity is
    the empty string returns a [MissingIdentity] error. *)
Theorem C5_rejected_calls_change_nothing (r : Revision) (op : Operation)
  (e : E) (u : UnitOfWork E) :
  exists err u', register r op e u = Returned (err, u') /\
    (err <> None ->
       newObjects u' = newObjects u /\ dirtyObjects u' = dirtyObjects u /\
       deletedObjects u' = deletedObjects u) /\
    (GetID e = "" -> isKind MissingIdentity err /\ u' = u).
Proof.
  destruct (register_returns r op e u) as (err & u' & Hrun & Hout).
  exists err, u'. split; [exact Hrun|].
  destruct (rejection op u (GetID e)) as [[kind c]|] eqn:Hrej.
  - destruct Hout as (-> & x & -> & Hkind & _). split; [auto|].
    intros Hid. rewrite Hid, rejection_empty in Hrej.
    injection Hrej as <- _. split; [|reflexivity]. now exists x.
  - destruct Hout as [-> ->]. split; [congruence|].
    intros Hid. rewrite Hid, rejection_empty in Hrej. discriminate.
Qed.

(** C9. Whatever a registration returns, each of the three mappings is
    the same before and after the call at every key other than the
    identity of the entity passed. *)
Theorem C9_frame (r : Revision) (op : Operation) (e : E) (u : UnitOfWork E) :
  exists err u', register r op e u = Returned (err, u') /\
    forall (c : Category) (k : string),
      k <> GetID e -> mapping c u' !! k = mapping c u !! k.
Proof.
  destruct (register_returns r op e u) as (err & u' & Hrun & Hout).
  exists err, u'. split; [exact Hrun|]. intros c k Hk.
  destruct (rejection op u (GetID e)) as [[kind cat]|].
  - now destruct Hout as [-> _].
  - destruct Hout as [_ ->]. now apply effect_frame.
Qed.

Lemma effect_dom op e1 e2 u c :
  GetID e1 = GetID e2 ->
  dom (mapping c (effect op e1 u)) = dom (mapping c (effect op e2 u)).
Proof.
  intros Hid. unfold effect. rewrite Hid.
  destruct op, c; cbn; repeat case_match; cbn;
    rewrite ?dom_insert_L; reflexivity.
Qed.

(** C10. Two entities with the same identity are treated alike: on the
    same registry each operation accepts both or rejects both with the
    same kind of error, the three mappings have the same keys afterwards,
    and they agree at every key other than that identity. *)
Theorem C10_identity_decides (r : Revision) (op : Operation) (e1 e2 : E)
  (u : UnitOfWork E) (Hid : GetID e1 = GetID e2) :
  exists err1 u1 err2 u2,
    register r op e1 u = Returned (err1, u1) /\
    register r op e2 u = Returned (err2, u2) /\
    (err1 = None <-> err2 = None) /\
    err1 ≫= kindOf = err2 ≫= kindOf /\
    (forall c : Category, dom (mapping c u1) = dom (mapping c u2)) /\
    (forall (c : Category) (k : string),
       k <> GetID e1 -> mapping c u1 !! k = mapping c u2 !! k).
Proof.
  destruct (register_returns r op e1 u) as (err1 & u1 & Hrun1 & Hout1).
  destruct (register_returns r op e2 u) as (err2 & u2 & Hrun2 & Hout2).
  exists err1, u1, err2, u2. split; [exact Hrun1|]. split; [exact Hrun2|].
  rewrite <- Hid in Hout2.
  destruct (rejection op u (GetID e1)) as [[kind c]|].
  - destruct Hout1 as (-> & x1 & -> & Hk1 & _).
    destruct Hout2 as (-> & x2 & -> & Hk2 & _).
    cbn. rewrite Hk1, Hk2. repeat split; congruence.
  - destruct Hout1 as [-> ->]. destruct Hout2 as [-> ->].
    repeat split; [intros c; now apply effect_dom|].
    intros c k Hk. rewrite !effect_frame; congruence.
Qed.

(** C6, as the code has it.  When a registration is accepted on a
    registry that holds the entity's identity in at most one mapping, the
    identity is afterwards in exactly one mapping, except after
    [RegisterDeleted] of an identity that was in the new mapping: that
    identity is then in none. *)
Theorem C6_one_mapping_after_success (r : Revision) (op : Operation) (e : E)
  (u : UnitOfWork E) (Hu : occurrences u (GetID e) <= 1) :
  exists err u', register r op e u = Returned (err, u') /\
    (err = None ->
       occurrences u' (GetID e) =
         match op with
         | OpDeleted => if registeredAs u New (GetID e) then 0 else 1
         | _ => 1
         end).
Proof.
  destruct (register_returns r op e u) as (err & u' & Hrun & Hout).
  exists err, u'. split; [exact Hrun|]. intros ->.
  destruct (rejection op u (GetID e)) as [[kind c]|] eqn:Hrej.
  - destruct Hout as (_ & x & Hx & _). discriminate.
  - destruct Hout as [_ ->]. rewrite occurrences_effect by assumption.
    unfold occurrences in Hu |- *.
    destruct op, (registeredAs u New (GetID e)),
      (registeredAs u Dirty (GetID e)), (registeredAs u Deleted (GetID e));
      cbn in Hu |- *; lia.
Qed.

Lemma stateOf_flags (u : UnitOfWork E) k st :
  stateOf u k = Some st ->
  registeredAs u New k = match st with StNew => true | _ => false end /\
  registeredAs u Dirty k = match st with StDirty => true | _ => false end /\
  registeredAs u Deleted k = match st with StDeleted => true | _ => false end.
Proof.
  unfold stateOf.
  destruct (registeredAs u New k), (registeredAs u Dirty k),
    (registeredAs u Deleted k); intros [= <-]; auto.
Qed.

(** C7, as the code has it.  For an entity with a non-empty identity:
    [RegisterNew] of an identity in the dirty, deleted or new state and
    [RegisterDirty] of an identity in the deleted state are rejected with
    [ConflictingState] and leave the registry as it was.
    [RegisterDeleted] is never rejected: on an identity in the deleted
    state it returns no error and leaves the registry as it was, and on an
    absent identity it returns no error and puts it in the deleted
    state. *)
Theorem C7_transitions_not_shown (r : Revision) (e : E) (u : UnitOfWork E)
  (Hid : GetID e <> "") :
  (stateOf u (GetID e) = Some StDirty \/ stateOf u (GetID e) = Some StDeleted \/
   stateOf u (GetID e) = Some StNew ->
     exists err, register r OpNew e u = Returned (Some err, u) /\
       kindOf err = Some ConflictingState) /\
  (stateOf u (GetID e) = Some StDeleted ->
     exists err, register r OpDirty e u = Returned (Some err, u) /\
       kindOf err = Some ConflictingState) /\
  (stateOf u (GetID e) = Some StDeleted ->
     register r OpDeleted e u = Returned (None, u)) /\
  (stateOf u (GetID e) = Some StAbsent ->
     exists u', register r OpDeleted e u = Returned (None, u') /\
       stateOf u' (GetID e) = Some StDeleted).
Proof.
  repeat split.
  - intros Hst.
    destruct (register_returns r OpNew e u) as (err & u' & Hrun & Hout).
    rewrite (rejection_nonempty _ _ _ Hid) in Hout.
    destruct Hst as [Hst|[Hst|Hst]];
      apply stateOf_flags in Hst; destruct Hst as (Hn & Hd & Hx);
      cbn in Hn, Hd, Hx; rewrite ?Hd, ?Hx, ?Hn in Hout; cbn in Hout;
      split_outcome; eauto.
  - intros Hst.
    destruct (register_returns r OpDirty e u) as (err & u' & Hrun & Hout).
    rewrite (rejection_nonempty _ _ _ Hid) in Hout.
    apply stateOf_flags in Hst; destruct Hst as (Hn & Hd & Hx).
    rewrite Hx in Hout. cbn in Hout. split_outcome; eauto.
  - intros Hst.
    destruct (register_returns r OpDeleted e u) as (err & u' & Hrun & Hout).
    rewrite (rejection_nonempty _ _ _ Hid) in Hout. destruct Hout as [-> ->].
    rewrite Hrun. apply stateOf_flags in Hst; destruct Hst as (Hn & Hd & Hx).
    unfold effect. rewrite Hn, Hx. destruct u as [n d x]. unfold updDirty. cbn.
    unfold registeredAs in Hd. cbn in Hd. now rewrite (delete_absent d).
  - intros Hst.
    destruct (register_returns r OpDeleted e u) as (err & u' & Hrun & Hout).
    rewrite (rejection_nonempty _ _ _ Hid) in Hout. destruct Hout as [-> ->].
    exists (effect OpDeleted e u). split; [exact Hrun|].
    apply stateOf_flags in Hst; destruct Hst as (Hn & Hd & Hx).
    unfold effect. rewrite Hn, Hx. destruct u as [n d x].
    unfold stateOf, registeredAs in *. cbn in *.
    now rewrite Hn, hasKey_delete_eq, hasKey_insert_eq.
Qed.

(** C8. Called with one of its three category names, the validation
    helper does not panic, leaves the registry as it is, and returns a
    [ConflictingState] error when the identity is in the mapping of that
    category and no error when it is not.  Called with any other name it
    panics.  The names are [new], [dirty] and [deleted] for
    [assertEntityNotRegisteredAs], and [new], [dirty] and [removed] for
    [assertModelNotRegisteredAs]. *)
Theorem C8_validation_helper (e : E) (name : string) :
  (forall u : UnitOfWork E,
     (forall c : Category, name = categoryName EntityRev c ->
        exists err, assertEntityNotRegisteredAs e name u = Returned (err, u) /\
          (registeredAs u c (GetID e) = true -> isKind ConflictingState err) /\
          (registeredAs u c (GetID e) = false -> err = None)) /\
     ((forall c : Category, name <> categoryName EntityRev c) ->
        exists msg, assertEntityNotRegisteredAs e name u = Panicked msg)) /\
  (forall u : ModelHelper.UnitOfWork E,
     (forall c : Category, name = categoryName ModelHelperRev c ->
        exists err,
          ModelHelper.assertModelNotRegisteredAs e name u = Returned (err, u) /\
          (registeredAs (ofModelHelper u) c (GetID e) = true ->
             isKind ConflictingState err) /\
          (registeredAs (ofModelHelper u) c (GetID e) = false -> err = None)) /\
     ((forall c : Category, name <> categoryName ModelHelperRev c) ->
        exists msg, ModelHelper.assertModelNotRegisteredAs e name u = Panicked msg)).
Proof.
  unfold isKind, registeredAs.
  split; intros u; split.
  - intros c ->.
    destruct c; unfold assertEntityNotRegisteredAs, bind, gets, ret; cbn;
      match goal with
      | |- context [hasKey ?m ?k] => destruct (hasKey m k)
      end; eexists; (split; [reflexivity|]); split; intros; try congruence;
      eexists; (split; [reflexivity|]); vm_compute; reflexivity.
  - intros Hno. unfold assertEntityNotRegisteredAs, bind, panic.
    destruct (String.eqb_spec name "dirty") as [->|_]; [now destruct (Hno Dirty)|].
    destruct (String.eqb_spec name "deleted") as [->|_]; [now destruct (Hno Deleted)|].
    destruct (String.eqb_spec name "new") as [->|_]; [now destruct (Hno New)|].
    eauto.
  - intros c ->.
    destruct c; unfold ModelHelper.assertModelNotRegisteredAs, bind, gets, ret; cbn;
      match goal with
      | |- context [hasKey ?m ?k] => destruct (hasKey m k)
      end; eexists; (split; [reflexivity|]); split; intros; try congruence;
      eexists; (split; [reflexivity|]); vm_compute; reflexivity.
  - intros Hno. unfold ModelHelper.assertModelNotRegisteredAs, bind, panic.
    destruct (String.eqb_spec name "dirty") as [->|_]; [now destruct (Hno Dirty)|].
    destruct (String.eqb_spec name "removed") as [->|_]; [now destruct (Hno Deleted)|].
    destruct (String.eqb_spec name "new") as [->|_]; [now destruct (Hno New)|].
    eauto.
Qed.

End Proofs.

(** ** The scenarios of the test file *)

Lemma reachable_new5 (r : Revision) : reachable r new5.
Proof.
  apply (reachable_step r OpNew e5 NewUnitOfWork new5 None); [constructor|].
  destruct r; vm_compute; reflexivity.
Qed.

Lemma reachable_dirty5 (r : Revision) : reachable r dirty5.
Proof.
  apply (reachable_step r OpDirty e5 NewUnitOfWork dirty5 None); [constructor|].
  destruct r; vm_compute; reflexivity.
Qed.

Lemma reachable_deleted5 (r : Revision) : reachable r deleted5.
Proof.
  apply (reachable_step r OpDeleted e5 NewUnitOfWork deleted5 None); [constructor|].
  destruct r; vm_compute; reflexivity.
Qed.

(** [TestRegisterNewFailsWithNoId]. *)
Example RegisterNew_no_id :
  exists err, RegisterNew e0 NewUnitOfWork = Returned (Some err, NewUnitOfWork) /\
    Error err = "Registering entity failed: entity has no ID: &{id:}".
Proof. eexists. split; reflexivity. Qed.

(** [TestRegisterNewFailsIfEntityAlreadyNew]. *)
Example RegisterNew_twice :
  exists err, RegisterNew e5 new5 = Returned (Some err, new5) /\
    Error err = "Registering entity failed: entity with ID " +:+ dq +:+ "5" +:+ dq
                +:+ " is already registered as new".
Proof. eexists. split; vm_compute; reflexivity. Qed.

(** [TestRegisterDirtyDoesNothingIfEntityNew]. *)
Example RegisterDirty_of_new : RegisterDirty e5 new5 = Returned (None, new5).
Proof. vm_compute. reflexivity. Qed.

(** Identity [7]: [RegisterDirty], then [RegisterDeleted]. *)
Example RegisterDeleted_of_dirty :
  RegisterDirty e7 NewUnitOfWork = Returned (None, dirty7) /\
  RegisterDeleted e7 dirty7 = Returned (None, deleted7).
Proof. split; vm_compute; reflexivity. Qed.

(** [TestAssertEntityNotRegisteredAsPanicsOnUknownState]. *)
Example assertEntityNotRegisteredAs_unknown :
  assertEntityNotRegisteredAs e5 "some-state" NewUnitOfWork =
    Panicked ("unknown registry for state of persistence: " +:+ dq +:+ "some-state"
              +:+ dq).
Proof. reflexivity. Qed.

(** The [Model] revisions spell the third category [removed]. *)
Example RegisterNew_of_removed :
  exists err,
    register ModelInlineRev OpNew e5 deleted5 = Returned (Some err, deleted5) /\
    Error err = "Registering new model failed: model with ID " +:+ dq +:+ "5" +:+ dq
                +:+ " is already registered as removed".
Proof. eexists. split; vm_compute; reflexivity. Qed.

(** *** Instances of the theorems *)

Lemma C1_at_most_one_mapping_witness :
  exclusive new5 /\
  exists err u', register EntityRev OpDeleted e5 new5 = Returned (err, u') /\
    exclusive u'.
Proof.
  assert (Hx : exclusive new5).
  { apply (proj1 (C1_at_most_one_mapping EntityRev)). apply reachable_new5. }
  split; [exact Hx|].
  apply (proj2 (C1_at_most_one_mapping EntityRev)). exact Hx.
Defined.

Lemma C3_RegisterDeleted_witness :
  GetID e7 <> "" /\
  exists u', register EntityRev OpDeleted e7 dirty7 = Returned (None, u') /\
    (registeredAs dirty7 New (GetID e7) = true ->
       newObjects u' = delete (GetID e7) (newObjects dirty7) /\
       dirtyObjects u' = dirtyObjects dirty7 /\
       deletedObjects u' = deletedObjects dirty7) /\
    (registeredAs dirty7 New (GetID e7) = false ->
       newObjects u' = newObjects dirty7 /\
       dirtyObjects u' = delete (GetID e7) (dirtyObjects dirty7) /\
       deletedObjects u' =
         if registeredAs dirty7 Deleted (GetID e7) then deletedObjects dirty7
         else <[GetID e7 := e7]> (deletedObjects dirty7)).
Proof.
  assert (Hid : GetID e7 <> "") by (vm_compute; discriminate).
  split; [exact Hid|]. exact (C3_RegisterDeleted EntityRev e7 dirty7 Hid).
Defined.

Lemma C6_one_mapping_after_success_witness :
  occurrences new5 (GetID e5) <= 1 /\
  exists err u', register EntityRev OpDeleted e5 new5 = Returned (err, u') /\
    (err = None ->
       occurrences u' (GetID e5) =
         if registeredAs new5 New (GetID e5) then 0 else 1).
Proof.
  assert (Hu : occurrences new5 (GetID e5) <= 1) by (vm_compute; lia).
  split; [exact Hu|].
  exact (C6_one_mapping_after_success EntityRev OpDeleted e5 new5 Hu).
Defined.

Lemma C7_transitions_not_shown_witness :
  GetID e5 <> "" /\
  stateOf deleted5 (GetID e5) = Some StDeleted /\
  (exists err, register EntityRev OpDirty e5 deleted5 = Returned (Some err, deleted5) /\
     kindOf err = Some ConflictingState) /\
  register EntityRev OpDeleted e5 deleted5 = Returned (None, deleted5).
Proof.
  assert (Hid : GetID e5 <> "") by (vm_compute; discriminate).
  assert (Hst : stateOf deleted5 (GetID e5) = Some StDeleted) by reflexivity.
  destruct (C7_transitions_not_shown EntityRev e5 deleted5 Hid)
    as (_ & Hdirty & Hdeleted & _).
  split; [exact Hid|]. split; [exact Hst|].
  split; [exact (Hdirty Hst)|exact (Hdeleted Hst)].
Defined.

Lemma C10_identity_decides_witness :
  GetID e5 = GetID e5' /\
  exists err1 u1 err2 u2,
    register EntityRev OpDirty e5 NewUnitOfWork = Returned (err1, u1) /\
    register EntityRev OpDirty e5' NewUnitOfWork = Returned (err2, u2) /\
    (err1 = None <-> err2 = None) /\
    err1 ≫= kindOf = err2 ≫= kindOf /\
    (forall c : Category, dom (mapping c u1) = dom (mapping c u2)) /\
    (forall (c : Category) (k : string),
       k <> GetID e5 -> mapping c u1 !! k = mapping c u2 !! k).
Proof.
  split; [reflexivity|].
  exact (C10_identity_decides EntityRev OpDirty e5 e5' NewUnitOfWork eq_refl).
Defined.

(** *** Where the code departs from C6 and C7 *)

(** [TestRegisterDeletedDeletesNewObject]: [RegisterNew] then
    [RegisterDeleted] of the same entity are both accepted, and the
    identity is then in none of the three mappings. *)
Lemma C6_counterexample :
  reachable EntityRev new5 /\
  register EntityRev OpDeleted e5 new5 = Returned (None, NewUnitOfWork) /\
  register ModelHelperRev OpDeleted e5 new5 = Returned (None, NewUnitOfWork) /\
  register ModelInlineRev OpDeleted e5 new5 = Returned (None, NewUnitOfWork) /\
  occurrences (NewUnitOfWork (E := EntityStub)) (GetID e5) = 0 /\
  ~ (forall (u u' : UnitOfWork EntityStub),
       reachable EntityRev u ->
       register EntityRev OpDeleted e5 u = Returned (None, u') ->
       occurrences u' (GetID e5) = 1).
Proof.
  assert (Hrun : register EntityRev OpDeleted e5 new5 = Returned (None, NewUnitOfWork))
    by (vm_compute; reflexivity).
  repeat split; try (vm_compute; reflexivity); [apply reachable_new5|].
  intros Hclaim. specialize (Hclaim new5 NewUnitOfWork (reachable_new5 _) Hrun).
  vm_compute in Hclaim. discriminate.
Qed.

(** [RegisterDeleted] of an identity that is already in the deleted
    state returns no error. *)
Lemma C7_counterexample :
  reachable EntityRev deleted5 /\
  stateOf deleted5 (GetID e5) = Some StDeleted /\
  register EntityRev OpDeleted e5 deleted5 = Returned (None, deleted5) /\
  register ModelHelperRev OpDeleted e5 deleted5 = Returned (None, deleted5) /\
  register ModelInlineRev OpDeleted e5 deleted5 = Returned (None, deleted5) /\
  ~ (exists err u',
       register EntityRev OpDeleted e5 deleted5 = Returned (Some err, u') /\
       kindOf err = Some ConflictingState).
Proof.
  repeat split; try (vm_compute; reflexivity); [apply reachable_deleted5|].
  intros (err & u' & Hrun & _). vm_compute in Hrun. discriminate.
Qed.

(** ** Beyond single calls: compositions, stability, the state machine *)

Section Composition.
Context {E : Type} `{Entity E}.

Lemma rejection_None (op : Operation) (u : UnitOfWork E) (k : string) :
  rejection op u k = None ->
  k <> "" /\
  match op with
  | OpNew =>
      registeredAs u New k = false /\ registeredAs u Dirty k = false /\
      registeredAs u Deleted k = false
  | OpDirty => registeredAs u Deleted k = false
  | OpDeleted => True
  end.
Proof.
  unfold rejection. destruct (String.eqb_spec k ""); [discriminate|].
  destruct op, (registeredAs u New k), (registeredAs u Dirty k),
    (registeredAs u Deleted k); intros; try discriminate; auto.
Qed.

(** An accepted call, seen from the caller. *)
Lemma accepted_effect r op (e : E) u u' :
  register r op e u = Returned (None, u') ->
  rejection op u (GetID e) = None /\ u' = effect op e u.
Proof.
  intros Hrun. pose proof (register_outcome r op e u) as Ho.
  destruct (rejection op u (GetID e)) as [[kind c]|].
  - destruct Ho as (x & Hx & _). congruence.
  - split; [reflexivity|congruence].
Qed.

Lemma effect_accepted r op (e : E) u :
  rejection op u (GetID e) = None ->
  register r op e u = Returned (None, effect op e u).
Proof.
  intros Hrej. pose proof (register_outcome r op e u) as Ho.
  now rewrite Hrej in Ho.
Qed.

(** X1. The three revisions are one program: on the same registry and entity
    they leave the same registry, and they all return [nil] or all return
    an error of the same kind. *)
Theorem revisions_agree (r1 r2 : Revision) (op : Operation) (e : E)
  (u : UnitOfWork E) :
  exists err1 err2 u',
    register r1 op e u = Returned (err1, u') /\
    register r2 op e u = Returned (err2, u') /\
    (err1 = None <-> err2 = None) /\
    err1 ≫= kindOf = err2 ≫= kindOf.
Proof.
  pose proof (register_outcome r1 op e u) as H1.
  pose proof (register_outcome r2 op e u) as H2.
  destruct (rejection op u (GetID e)) as [[kind c]|].
  - destruct H1 as (x1 & Hr1 & Hk1 & _). destruct H2 as (x2 & Hr2 & Hk2 & _).
    exists (Some x1), (Some x2), u. cbn. rewrite Hk1, Hk2.
    repeat split; congruence.
  - exists None, None, (effect op e u). repeat split; assumption.
Qed.

(** What is stored under the entity's identity after an accepted call
    is the entity passed or what was there before. *)
Lemma effect_lookup_own op (e : E) u c v :
  mapping c (effect op e u) !! GetID e = Some v ->
  v = e \/ mapping c u !! GetID e = Some v.
Proof.
  unfold effect.
  destruct op, c; cbn; repeat case_match; cbn;
    rewrite ?lookup_insert_eq, ?lookup_delete_eq; intros; simplify_eq; auto.
Qed.

Lemma keyedByIdentity_effect op (e : E) u :
  rejection op u (GetID e) = None -> keyedByIdentity u ->
  keyedByIdentity (effect op e u).
Proof.
  intros Hrej Hu. apply rejection_None in Hrej as [Hid _].
  intros c k v Hv. destruct (decide (k = GetID e)) as [->|Hne].
  - apply effect_lookup_own in Hv as [->|Hv]; [auto|now apply (Hu c)].
  - rewrite effect_frame in Hv by assumption. now apply (Hu c).
Qed.

(** X2. Each operation keeps the entries under the identities of their
    entities, and never uses the empty string as a key. *)
Theorem keyedByIdentity_preserved (r : Revision) (op : Operation) (e : E)
  (u : UnitOfWork E) (Hu : keyedByIdentity u) :
  exists err u', register r op e u = Returned (err, u') /\ keyedByIdentity u'.
Proof.
  destruct (register_returns r op e u) as (err & u' & Hrun & Hout).
  exists err, u'. split; [exact Hrun|].
  destruct (rejection op u (GetID e)) as [[kind c]|] eqn:Hrej.
  - now destruct Hout as [-> _].
  - destruct Hout as [_ ->]. now apply keyedByIdentity_effect.
Qed.

(** X8. No call removes or replaces an entry of the deleted mapping. *)
Theorem deleted_entries_stay (r : Revision) (op : Operation) (e : E)
  (u : UnitOfWork E) (k : string) (v : E)
  (Hv : deletedObjects u !! k = Some v) :
  exists err u', register r op e u = Returned (err, u') /\
    deletedObjects u' !! k = Some v.
Proof.
  destruct (register_returns r op e u) as (err & u' & Hrun & Hout).
  exists err, u'. split; [exact Hrun|].
  destruct (rejection op u (GetID e)) as [[kind c]|] eqn:Hrej.
  - now destruct Hout as [-> _].
  - destruct Hout as [_ ->]. destruct (decide (k = GetID e)) as [->|Hne].
    + assert (Hx : registeredAs u Deleted (GetID e) = true).
      { unfold registeredAs, hasKey. cbn. now rewrite Hv. }
      apply rejection_None in Hrej as [_ Hrej]. unfold effect.
      destruct op; [destruct Hrej as (_ & _ & Hrej); congruence|congruence|].
      rewrite Hx. now destruct (registeredAs u New (GetID e)).
    + pose proof (effect_frame op e u Deleted k Hne) as Hf.
      cbn [mapping] in Hf. congruence.
Qed.

(** X9. No call replaces an entry of the new mapping; the only call that
    removes one is an accepted [RegisterDeleted] of its identity. *)
Theorem new_entries_not_replaced (r : Revision) (op : Operation) (e : E)
  (u : UnitOfWork E) (k : string) (v : E)
  (Hv : newObjects u !! k = Some v) :
  exists err u', register r op e u = Returned (err, u') /\
    (newObjects u' !! k = Some v \/
     op = OpDeleted /\ k = GetID e /\ err = None /\ newObjects u' !! k = None).
Proof.
  destruct (register_returns r op e u) as (err & u' & Hrun & Hout).
  exists err, u'. split; [exact Hrun|].
  destruct (rejection op u (GetID e)) as [[kind c]|] eqn:Hrej.
  - destruct Hout as [-> _]. now left.
  - destruct Hout as [-> ->]. destruct (decide (k = GetID e)) as [->|Hne].
    + assert (Hn : registeredAs u New (GetID e) = true).
      { unfold registeredAs, hasKey. cbn. now rewrite Hv. }
      apply rejection_None in Hrej as [_ Hrej]. unfold effect.
      destruct op; rewrite ?Hn.
      * destruct Hrej as (Hrej & _). congruence.
      * now left.
      * right. cbn. now rewrite lookup_delete_eq.
    + left. pose proof (effect_frame op e u New k Hne) as Hf.
      cbn [mapping] in Hf. congruence.
Qed.

Lemma registeredAs_frame op (e : E) u c k :
  k <> GetID e -> registeredAs (effect op e u) c k = registeredAs u c k.
Proof.
  intros Hne. unfold registeredAs, hasKey. now rewrite effect_frame.
Qed.

(** The three lookups at the entity's identity after an accepted call,
    from the three lookups before it. *)
Lemma registeredAs_effect op (e : E) u :
  registeredAs (effect op e u) New (GetID e) =
    match op with
    | OpNew => true
    | OpDirty => registeredAs u New (GetID e)
    | OpDeleted => false
    end /\
  registeredAs (effect op e u) Dirty (GetID e) =
    match op with
    | OpNew => registeredAs u Dirty (GetID e)
    | OpDirty => registeredAs u Dirty (GetID e) || negb (registeredAs u New (GetID e))
    | OpDeleted => registeredAs u Dirty (GetID e) && registeredAs u New (GetID e)
    end /\
  registeredAs (effect op e u) Deleted (GetID e) =
    match op with
    | OpDeleted => registeredAs u Deleted (GetID e) || negb (registeredAs u New (GetID e))
    | _ => registeredAs u Deleted (GetID e)
    end.
Proof.
  unfold effect, registeredAs. destruct u as [n d x]. cbn.
  destruct op; cbn;
    destruct (hasKey n (GetID e)) eqn:Hn, (hasKey d (GetID e)) eqn:Hd,
      (hasKey x (GetID e)) eqn:Hx; cbn;
    rewrite ?hasKey_insert_eq, ?hasKey_delete_eq, ?Hn, ?Hd, ?Hx; auto.
Qed.

(** X4. Registering an entity as new and then as deleted is accepted and
    gives back the registry one started from. *)
Theorem RegisterNew_then_RegisterDeleted (r : Revision) (e : E)
  (u u' : UnitOfWork E) :
  register r OpNew e u = Returned (None, u') ->
  register r OpDeleted e u' = Returned (None, u).
Proof.
  intros Hrun. apply accepted_effect in Hrun as [Hrej ->].
  apply rejection_None in Hrej as (Hid & Hn & _ & _).
  rewrite (effect_accepted r OpDeleted e) by now apply rejection_nonempty.
  f_equal. f_equal. destruct (registeredAs_effect OpNew e u) as (Hn' & _).
  unfold effect at 1. rewrite Hn'. destruct u as [n d x].
  unfold effect, updNew. cbn. f_equal. apply delete_insert_id.
  now apply hasKey_false.
Qed.

(** X5. [RegisterDirty] keeps the last reference: after an accepted
    [RegisterDirty] of one entity, [RegisterDirty] of an entity with the
    same identity is accepted and leaves the registry it would have left
    without the first call.  In particular a second [RegisterDirty] of the
    same entity changes nothing. *)
Theorem RegisterDirty_last_reference_wins (r : Revision) (e1 e2 : E)
  (u u1 : UnitOfWork E) (Hid : GetID e1 = GetID e2) :
  register r OpDirty e1 u = Returned (None, u1) ->
  (exists u2, register r OpDirty e2 u = Returned (None, u2) /\
     register r OpDirty e2 u1 = Returned (None, u2)) /\
  register r OpDirty e1 u1 = Returned (None, u1).
Proof.
  intros Hrun. apply accepted_effect in Hrun as [Hrej ->].
  pose proof Hrej as Hrej0.
  apply rejection_None in Hrej as (Hne & Hx).
  destruct (registeredAs_effect OpDirty e1 u) as (Hn1 & _ & Hx1).
  assert (Hrej1 : rejection OpDirty (effect OpDirty e1 u) (GetID e1) = None).
  { rewrite rejection_nonempty by assumption. now rewrite Hx1, Hx. }
  assert (Hsame : forall e : E, GetID e = GetID e1 ->
            effect OpDirty e (effect OpDirty e1 u) = effect OpDirty e u).
  { intros e He. unfold effect at 1. rewrite He, Hn1. unfold effect. rewrite He.
    destruct (registeredAs u New (GetID e1)); [reflexivity|].
    destruct u as [n d x]. unfold updDirty. cbn. f_equal.
    apply insert_insert_eq. }
  split.
  - exists (effect OpDirty e2 u). split.
    + apply effect_accepted. now rewrite <- Hid.
    + rewrite <- (Hsame e2) by congruence.
      apply effect_accepted. now rewrite <- Hid.
  - rewrite (effect_accepted r OpDirty e1 _ Hrej1). now rewrite Hsame.
Qed.

(** X6. [RegisterDeleted] keeps the first reference: for an identity that is
    not in the new mapping, a second [RegisterDeleted] with any entity of
    that identity changes nothing, and the deleted mapping holds the
    reference it already had, or else the one of the first call. *)
Theorem RegisterDeleted_first_reference_stays (r : Revision) (e1 e2 : E)
  (u : UnitOfWork E) (Hid : GetID e1 = GetID e2) (Hne : GetID e1 <> "")
  (Hnew : registeredAs u New (GetID e1) = false) :
  exists u1, register r OpDeleted e1 u = Returned (None, u1) /\
    register r OpDeleted e2 u1 = Returned (None, u1) /\
    deletedObjects u1 !! GetID e1 = Some (default e1 (deletedObjects u !! GetID e1)).
Proof.
  exists (effect OpDeleted e1 u).
  destruct (registeredAs_effect OpDeleted e1 u) as (Hn1 & _ & Hx1).
  rewrite Hnew, orb_true_r in Hx1.
  split; [apply effect_accepted; now apply rejection_nonempty|]. split.
  - rewrite (effect_accepted r OpDeleted e2)
      by (apply rejection_nonempty; congruence).
    f_equal. f_equal. unfold effect at 1. rewrite <- Hid, Hn1, Hx1.
    unfold effect. rewrite Hnew.
    destruct (registeredAs u Deleted (GetID e1)); destruct u as [n d x];
      unfold updDirty, updDeleted; cbn; f_equal; apply delete_delete_eq.
  - unfold effect. rewrite Hnew. unfold registeredAs, hasKey.
    destruct u as [n d x]. cbn.
    destruct (x !! GetID e1) eqn:Hx; cbn; [exact Hx|apply lookup_insert_eq].
Qed.

(** X7. An entity registered as dirty and then as deleted ends up in the
    deleted mapping only: the pending update is dropped. *)
Theorem RegisterDirty_then_RegisterDeleted (r : Revision) (e : E)
  (u u1 : UnitOfWork E) (Hnew : registeredAs u New (GetID e) = false) :
  register r OpDirty e u = Returned (None, u1) ->
  exists u2, register r OpDeleted e u1 = Returned (None, u2) /\
    newObjects u2 = newObjects u /\
    dirtyObjects u2 = delete (GetID e) (dirtyObjects u) /\
    deletedObjects u2 = <[GetID e := e]> (deletedObjects u).
Proof.
  intros Hrun. apply accepted_effect in Hrun as [Hrej ->].
  apply rejection_None in Hrej as (Hne & Hx).
  exists (effect OpDeleted e (effect OpDirty e u)).
  split; [apply effect_accepted; now apply rejection_nonempty|].
  destruct (registeredAs_effect OpDirty e u) as (Hn1 & _ & Hx1).
  unfold effect at 1 3 5. rewrite Hn1, Hx1, Hnew, Hx.
  unfold effect. rewrite Hnew. destruct u as [n d x]. cbn.
  repeat split. apply delete_insert_eq.
Qed.

(** X10. The registry implements [transition]: for an entity with a non-empty
    identity in state [st], a call allowed by [transition] is accepted and
    puts the identity in the state [transition] gives, any other call is
    rejected with [ConflictingState] and changes nothing; the state of
    every other identity is left as it was. *)
Theorem register_follows_transition (r : Revision) (op : Operation) (e : E)
  (u : UnitOfWork E) (st : IdState) (Hid : GetID e <> "")
  (Hst : stateOf u (GetID e) = Some st) :
  exists err u', register r op e u = Returned (err, u') /\
    match transition st op with
    | Some st' => err = None /\ stateOf u' (GetID e) = Some st'
    | None => isKind ConflictingState err /\ u' = u
    end /\
    forall k : string, k <> GetID e -> stateOf u' k = stateOf u k.
Proof.
  destruct (register_returns r op e u) as (err & u' & Hrun & Hout).
  exists err, u'. split; [exact Hrun|].
  rewrite (rejection_nonempty _ _ _ Hid) in Hout.
  apply stateOf_flags in Hst as (Hn & Hd & Hx).
  assert (Hown : forall c, registeredAs (effect op e u) c (GetID e) =
            match c with
            | New => match op with OpNew => true | OpDirty => registeredAs u New (GetID e)
                                 | OpDeleted => false end
            | Dirty => match op with
                       | OpNew => registeredAs u Dirty (GetID e)
                       | OpDirty => registeredAs u Dirty (GetID e)
                                    || negb (registeredAs u New (GetID e))
                       | OpDeleted => registeredAs u Dirty (GetID e)
                                      && registeredAs u New (GetID e)
                       end
            | Deleted => match op with
                         | OpDeleted => registeredAs u Deleted (GetID e)
                                        || negb (registeredAs u New (GetID e))
                         | _ => registeredAs u Deleted (GetID e)
                         end
            end).
  { intros c. destruct (registeredAs_effect op e u) as (H1 & H2 & H3).
    now destruct c. }
  split.
  - destruct st, op; cbn in Hn, Hd, Hx |- *; rewrite ?Hn, ?Hd, ?Hx in Hout;
      cbn in Hout;
      repeat match goal with
             | Ho : _ /\ _ |- _ => destruct Ho
             | Ho : exists _, _ |- _ => destruct Ho
             end; subst; unfold isKind; (split; [eauto|]); try reflexivity;
      unfold stateOf; rewrite !Hown, ?Hn, ?Hd, ?Hx; reflexivity.
  - intros k Hk.
    assert (Hu' : u' = u \/ u' = effect op e u).
    { destruct op, (registeredAs u New (GetID e)), (registeredAs u Dirty (GetID e)),
        (registeredAs u Deleted (GetID e)); cbn in Hout; intuition. }
    destruct Hu' as [->| ->]; [reflexivity|].
    unfold stateOf. now rewrite !registeredAs_frame.
Qed.

Lemma register_after r op (e : E) u :
  exists err, register r op e u = Returned (err, after op e u).
Proof.
  unfold after. pose proof (register_outcome r op e u) as Ho.
  destruct (rejection op u (GetID e)) as [[kind c]|].
  - destruct Ho as (x & Hx & _). eauto.
  - eauto.
Qed.

Lemma after_frame op (e : E) u c k :
  k <> GetID e -> registeredAs (after op e u) c k = registeredAs u c k.
Proof.
  intros Hne. unfold after.
  destruct (rejection op u (GetID e)); [reflexivity|now apply registeredAs_frame].
Qed.

Lemma rejection_local op (u u2 : UnitOfWork E) k :
  (forall c, registeredAs u c k = registeredAs u2 c k) ->
  rejection op u k = rejection op u2 k.
Proof. intros Hf. unfold rejection. now rewrite !Hf. Qed.

(** The error a call returns is decided by the entity and by the three
    lookups at its identity. *)
Lemma register_error_local r op (e : E) (u u2 : UnitOfWork E) :
  (forall c, registeredAs u c (GetID e) = registeredAs u2 c (GetID e)) ->
  exists err v v2,
    register r op e u = Returned (err, v) /\
    register r op e u2 = Returned (err, v2).
Proof.
  intros Hf. pose proof (Hf New) as Hn. pose proof (Hf Dirty) as Hd.
  pose proof (Hf Deleted) as Hx. clear Hf.
  destruct u as [n d x], u2 as [n2 d2 x2]. unfold registeredAs in *. cbn in *.
  destruct r, op;
    unfold register, via, RegisterNew, RegisterDirty, RegisterDeleted,
      ModelHelper.RegisterNew, ModelHelper.RegisterDirty,
      ModelHelper.RegisterRemoved, ModelInline.RegisterNew,
      ModelInline.RegisterDirty, ModelInline.RegisterRemoved,
      assertEntityHasID, assertEntityNotRegisteredAs,
      ModelHelper.assertModelNotRegisteredAs, bind, ret, gets, modify.
  all: destruct (String.eqb (GetID e) ""); cbn; rewrite ?Hn, ?Hd, ?Hx.
  all: repeat match goal with
         | |- context [hasKey ?m ?k] => destruct (hasKey m k); cbn
         end.
  all: try congruence.
  all: do 3 eexists; split; reflexivity.
Qed.

Lemma effect_commute op1 op2 (e1 e2 : E) u :
  GetID e1 <> GetID e2 ->
  effect op2 e2 (effect op1 e1 u) = effect op1 e1 (effect op2 e2 u).
Proof.
  intros Hne. unfold effect at 1 3.
  rewrite !registeredAs_frame by congruence.
  unfold effect.
  destruct (registeredAs u New (GetID e1)), (registeredAs u Deleted (GetID e1)),
    (registeredAs u New (GetID e2)), (registeredAs u Deleted (GetID e2));
    destruct op1, op2, u as [n d x]; unfold updNew, updDirty, updDeleted; cbn;
    f_equal; try reflexivity;
    apply map_eq; intros i;
    repeat (rewrite lookup_insert || rewrite lookup_delete);
    repeat case_decide; congruence.
Qed.

Lemma after_commute op1 op2 (e1 e2 : E) u :
  GetID e1 <> GetID e2 ->
  after op2 e2 (after op1 e1 u) = after op1 e1 (after op2 e2 u).
Proof.
  intros Hne. unfold after at 1 3.
  rewrite (rejection_local op2 (after op1 e1 u) u)
    by (intros c; apply after_frame; congruence).
  rewrite (rejection_local op1 (after op2 e2 u) u)
    by (intros c; apply after_frame; congruence).
  unfold after.
  destruct (rejection op1 u (GetID e1)), (rejection op2 u (GetID e2));
    try reflexivity.
  now apply effect_commute.
Qed.

(** X11. Calls on entities with different identities do not interfere: in
    either order each call returns the same error and the registry ends
    up the same. *)
Theorem registrations_of_distinct_identities_commute (r : Revision)
  (op1 op2 : Operation) (e1 e2 : E) (u : UnitOfWork E)
  (Hne : GetID e1 <> GetID e2) :
  exists err1 err2 u1 u2 w,
    register r op1 e1 u = Returned (err1, u1) /\
    register r op2 e2 u1 = Returned (err2, w) /\
    register r op2 e2 u = Returned (err2, u2) /\
    register r op1 e1 u2 = Returned (err1, w).
Proof.
  destruct (register_error_local r op1 e1 u (after op2 e2 u))
    as (err1 & u1 & w1 & Hr1 & Hr4).
  { intros c. symmetry. apply after_frame. congruence. }
  destruct (register_error_local r op2 e2 u (after op1 e1 u))
    as (err2 & u2 & w2 & Hr3 & Hr2).
  { intros c. symmetry. apply after_frame. congruence. }
  destruct (register_after r op1 e1 u) as (a1 & Ha1).
  destruct (register_after r op2 e2 u) as (a2 & Ha2).
  destruct (register_after r op1 e1 (after op2 e2 u)) as (a4 & Ha4).
  destruct (register_after r op2 e2 (after op1 e1 u)) as (a3 & Ha3).
  exists err1, err2, (after op1 e1 u), (after op2 e2 u),
    (after op2 e2 (after op1 e1 u)).
  rewrite Ha1 in Hr1. rewrite Ha2 in Hr3. rewrite Ha3 in Hr2. rewrite Ha4 in Hr4.
  simplify_eq. rewrite Ha1, Ha2, Ha3, Ha4.
  repeat split. now rewrite after_commute.
Qed.

(** *** Which registries can arise *)

Lemma reachable_deleted_only r (x : gmap string E) :
  (forall k v, x !! k = Some v -> GetID v = k /\ k <> "") ->
  reachable r {| newObjects := ∅; dirtyObjects := ∅; deletedObjects := x |}.
Proof.
  induction x as [|i v m Hi IH] using map_ind; intros Hk.
  - apply reachable_new.
  - destruct (Hk i v (lookup_insert_eq _ _ _)) as [Hv Hne].
    apply (reachable_step r OpDeleted v
             {| newObjects := ∅; dirtyObjects := ∅; deletedObjects := m |} _ None).
    + apply IH. intros k w Hw. apply Hk. rewrite lookup_insert_ne; [exact Hw|].
      congruence.
    + rewrite effect_accepted by (apply rejection_nonempty; congruence).
      unfold effect, registeredAs, hasKey. cbn.
      rewrite Hv, lookup_empty, Hi. unfold updDeleted, updDirty. cbn.
      now rewrite delete_empty.
Qed.

Lemma reachable_add_dirty r (d x : gmap string E) :
  reachable r {| newObjects := ∅; dirtyObjects := ∅; deletedObjects := x |} ->
  (forall k v, d !! k = Some v -> GetID v = k /\ k <> "" /\ x !! k = None) ->
  reachable r {| newObjects := ∅; dirtyObjects := d; deletedObjects := x |}.
Proof.
  intros Hx. induction d as [|i v m Hi IH] using map_ind; intros Hk.
  - exact Hx.
  - destruct (Hk i v (lookup_insert_eq _ _ _)) as (Hv & Hne & Hxi).
    apply (reachable_step r OpDirty v
             {| newObjects := ∅; dirtyObjects := m; deletedObjects := x |} _ None).
    + apply IH. intros k w Hw. apply Hk. rewrite lookup_insert_ne; [exact Hw|].
      congruence.
    + assert (Hrej : rejection OpDirty
                {| newObjects := ∅; dirtyObjects := m; deletedObjects := x |}
                (GetID v) = None).
      { rewrite rejection_nonempty by congruence.
        unfold registeredAs, hasKey. cbn. now rewrite Hv, Hxi. }
      rewrite (effect_accepted r OpDirty v _ Hrej).
      unfold effect, registeredAs, hasKey. cbn.
      now rewrite Hv, lookup_empty.
Qed.

Lemma reachable_add_new r (n d x : gmap string E) :
  reachable r {| newObjects := ∅; dirtyObjects := d; deletedObjects := x |} ->
  (forall k v, n !! k = Some v ->
     GetID v = k /\ k <> "" /\ d !! k = None /\ x !! k = None) ->
  reachable r {| newObjects := n; dirtyObjects := d; deletedObjects := x |}.
Proof.
  intros Hd. induction n as [|i v m Hi IH] using map_ind; intros Hk.
  - exact Hd.
  - destruct (Hk i v (lookup_insert_eq _ _ _)) as (Hv & Hne & Hdi & Hxi).
    apply (reachable_step r OpNew v
             {| newObjects := m; dirtyObjects := d; deletedObjects := x |} _ None).
    + apply IH. intros k w Hw. apply Hk. rewrite lookup_insert_ne; [exact Hw|].
      congruence.
    + assert (Hrej : rejection OpNew
                {| newObjects := m; dirtyObjects := d; deletedObjects := x |}
                (GetID v) = None).
      { rewrite rejection_nonempty by congruence.
        unfold registeredAs, hasKey. cbn. now rewrite Hv, Hdi, Hxi, Hi. }
      rewrite (effect_accepted r OpNew v _ Hrej).
      unfold effect. cbn. now rewrite Hv.
Qed.

Lemma exclusive_lookups (u : UnitOfWork E) k :
  occurrences u k <= 1 ->
  (is_Some (newObjects u !! k) ->
     dirtyObjects u !! k = None /\ deletedObjects u !! k = None) /\
  (is_Some (dirtyObjects u !! k) -> deletedObjects u !! k = None).
Proof.
  unfold occurrences, registeredAs, hasKey. cbn.
  destruct (newObjects u !! k), (dirtyObjects u !! k), (deletedObjects u !! k);
    cbn; intros Hle; split; intros [w Hw]; try discriminate; auto; lia.
Qed.

(** X3. The registries that calls can produce from the empty one are exactly
    those in which no identity is in two mappings and every entry is
    stored under the non-empty identity of its entity. *)
Theorem reachable_iff_exclusive_and_keyed (r : Revision) (u : UnitOfWork E) :
  reachable r u <-> exclusive u /\ keyedByIdentity u.
Proof.
  split.
  - induction 1 as [|op e u u' err _ [IHx IHk] Hrun].
    + split; [apply exclusive_NewUnitOfWork|].
      intros c k v. destruct c; cbn; now rewrite lookup_empty.
    + destruct (register_after r op e u) as (err' & Hafter).
      rewrite Hrun in Hafter. injection Hafter as _ ->. unfold after.
      destruct (rejection op u (GetID e)) eqn:Hrej; [now split|].
      split; [now apply exclusive_effect|now apply keyedByIdentity_effect].
  - intros [Hx Hk]. destruct u as [n d x].
    apply reachable_add_new; [apply reachable_add_dirty;
                                [apply reachable_deleted_only|]|].
    + intros k v Hv. now apply (Hk Deleted).
    + intros k v Hv. destruct (Hk Dirty k v Hv) as [Hid Hne].
      destruct (exclusive_lookups _ k (Hx k)) as [_ Hd].
      repeat split; auto; apply Hd; cbn; eauto.
    + intros k v Hv. destruct (Hk New k v Hv) as [Hid Hne].
      destruct (exclusive_lookups _ k (Hx k)) as [Hn _].
      repeat split; auto; apply Hn; cbn; eauto.
Qed.

(** *** What the error messages say *)

(** [cbn] may unfold [+:+] when its first operand starts with a
    character. *)
Local Arguments String.append !s1 s2 : simpl nomatch.

Lemma Contains_at s sub : HasPrefix s sub = true -> Contains s sub = true.
Proof. intros Hp. destruct s; cbn [Contains]; now rewrite Hp. Qed.

Lemma HasPrefix_append a s p : HasPrefix (a +:+ s) (a +:+ p) = HasPrefix s p.
Proof.
  induction a as [|c a IH]; [reflexivity|].
  change (HasPrefix (String c (a +:+ s)) (String c (a +:+ p)) = HasPrefix s p).
  cbn [HasPrefix]. now rewrite Ascii.eqb_refl, IH.
Qed.

Lemma HasPrefix_self a s : HasPrefix (a +:+ s) a = true.
Proof.
  induction a as [|c a IH].
  { change (HasPrefix s "" = true). now destruct s. }
  change (HasPrefix (String c (a +:+ s)) (String c a) = true).
  cbn [HasPrefix]. now rewrite Ascii.eqb_refl, IH.
Qed.

Lemma Contains_quoted q a rest :
  Contains (String q (a +:+ String q rest)) (String q (a +:+ String q "")) = true.
Proof.
  apply Contains_at. cbn [HasPrefix]. rewrite Ascii.eqb_refl, HasPrefix_append.
  cbn [HasPrefix]. rewrite Ascii.eqb_refl. now destruct rest.
Qed.

Lemma register_messages r op (e : E) u :
  match rejection op u (GetID e) with
  | Some (ConflictingState, _) =>
      exists err, register r op e u = Returned (Some err, u) /\
        Contains (Error err) (dq +:+ GetID e +:+ dq) = true
  | Some (MissingIdentity, _) =>
      exists err, register r op e u = Returned (Some err, u) /\
        Contains (Error err)
          (match r with EntityRev => "entity" | _ => "model" end
           +:+ " has no ID: " +:+ fmtPlusV e) = true
  | None => True
  end.
Proof.
  unfold rejection, registeredAs, mapping.
  destruct u as [n d x].
  destruct r, op;
    unfold register, via, RegisterNew, RegisterDirty, RegisterDeleted,
      ModelHelper.RegisterNew, ModelHelper.RegisterDirty,
      ModelHelper.RegisterRemoved, ModelInline.RegisterNew,
      ModelInline.RegisterDirty, ModelInline.RegisterRemoved,
      assertEntityHasID, assertEntityNotRegisteredAs,
      ModelHelper.assertModelNotRegisteredAs, bind, ret, gets, modify.
  all: destruct (String.eqb (GetID e) "") eqn:Hid; cbn.
  all: repeat match goal with
         | |- context [hasKey ?m ?k] => destruct (hasKey m k) eqn:?; cbn
         end.
  all: try exact I.
  all: eexists; (split; [reflexivity|]); unfold Error, dq;
    cbn [Sprintf format args nextArg String.append].
  all: repeat match goal with
         | |- Contains (String ?q (?a +:+ String ?q ?rest))
                (String ?q (?a +:+ String ?q EmptyString)) = true =>
             apply Contains_quoted
         | |- Contains (String ?c _) (String ?c _) = true =>
             solve [ apply Contains_at; cbn [HasPrefix Ascii.eqb Bool.eqb andb];
                     apply HasPrefix_self ]
         | |- Contains (String _ _) _ = true => apply Contains_String
         end.
Qed.

Lemma rejection_conflict op (u : UnitOfWork E) k c :
  rejection op u k = Some (ConflictingState, c) ->
  exists cat, c = Some cat /\ registeredAs u cat k = true.
Proof.
  unfold rejection. destruct (String.eqb k ""); [discriminate|].
  destruct op;
    destruct (registeredAs u Dirty k) eqn:Hd, (registeredAs u Deleted k) eqn:Hx,
      (registeredAs u New k) eqn:Hn; intros [= <-]; eauto.
Qed.

(** X12. The message of a conflict quotes the identity of the entity and names
    a category in which that identity is registered. *)
Theorem conflict_message_names_identity_and_category (r : Revision)
  (op : Operation) (e : E) (u u' : UnitOfWork E) (err : error) :
  register r op e u = Returned (Some err, u') ->
  kindOf err = Some ConflictingState ->
  Contains (Error err) (dq +:+ GetID e +:+ dq) = true /\
  exists c : Category,
    registeredAs u c (GetID e) = true /\
    Contains (Error err) ("already registered as " +:+ categoryName r c) = true.
Proof.
  intros Hrun Hkind.
  pose proof (register_outcome r op e u) as Ho.
  pose proof (register_messages r op e u) as Hm.
  destruct (rejection op u (GetID e)) as [[kind c]|] eqn:Hrej; [|congruence].
  destruct Ho as (x & Hx & Hk & Hc). rewrite Hrun in Hx.
  injection Hx as <- _. assert (kind = ConflictingState) as -> by congruence.
  destruct Hm as (y & Hy & Hq). rewrite Hrun in Hy. injection Hy as <- _.
  split; [exact Hq|].
  apply rejection_conflict in Hrej as (cat & -> & Hcat). eauto.
Qed.

(** X13. A call with an entity whose identity is empty returns an error whose
    message says that the entity (the model, in the [Model] revisions) has
    no ID, followed by the entity as [%+v] prints it. *)
Theorem missing_identity_message (r : Revision) (op : Operation) (e : E)
  (u : UnitOfWork E) (Hid : GetID e = "") :
  exists err, register r op e u = Returned (Some err, u) /\
    Contains (Error err)
      (match r with EntityRev => "entity" | _ => "model" end
       +:+ " has no ID: " +:+ fmtPlusV e) = true.
Proof.
  pose proof (register_messages r op e u) as Hm.
  rewrite Hid, rejection_empty in Hm. exact Hm.
Qed.

(** *** The empty registry and the validation helpers *)

(** X14. On the registry [NewUnitOfWork] returns, every registration of an
    entity with a non-empty identity is accepted and leaves that entity,
    alone, in the mapping of the operation. *)
Theorem first_registration (r : Revision) (op : Operation) (e : E)
  (Hid : GetID e <> "") :
  exists u', register r op e NewUnitOfWork = Returned (None, u') /\
    forall c : Category,
      mapping c u' =
        match op, c with
        | OpNew, New | OpDirty, Dirty | OpDeleted, Deleted => {[GetID e := e]}
        | _, _ => ∅
        end.
Proof.
  exists (effect op e NewUnitOfWork). split.
  - apply effect_accepted. rewrite rejection_nonempty by assumption.
    unfold registeredAs, hasKey. cbn. rewrite lookup_empty. now destruct op.
  - intros c. unfold effect, registeredAs, hasKey. cbn. rewrite lookup_empty.
    destruct op, c; cbn; rewrite ?delete_empty, ?insert_empty; reflexivity.
Qed.

(** X15. In the [Entity] revision the validation helpers predict acceptance:
    [RegisterNew] returns no error exactly when [assertEntityHasID] and
    [assertEntityNotRegisteredAs] for [dirty], [deleted] and [new] return
    none, and [RegisterDirty] exactly when [assertEntityHasID] and
    [assertEntityNotRegisteredAs] for [deleted] return none.  The helpers
    leave the registry as it is. *)
Theorem helpers_predict_acceptance (e : E) (u : UnitOfWork E) :
  ((exists u', RegisterNew e u = Returned (None, u')) <->
     assertEntityHasID e u = Returned (None, u) /\
     assertEntityNotRegisteredAs e "dirty" u = Returned (None, u) /\
     assertEntityNotRegisteredAs e "deleted" u = Returned (None, u) /\
     assertEntityNotRegisteredAs e "new" u = Returned (None, u)) /\
  ((exists u', RegisterDirty e u = Returned (None, u')) <->
     assertEntityHasID e u = Returned (None, u) /\
     assertEntityNotRegisteredAs e "deleted" u = Returned (None, u)).
Proof.
  destruct u as [n d x].
  unfold RegisterNew, RegisterDirty, assertEntityHasID,
    assertEntityNotRegisteredAs, bind, ret, gets, modify.
  destruct (String.eqb (GetID e) "");
    destruct (hasKey n (GetID e)) eqn:Hn, (hasKey d (GetID e)) eqn:Hd,
      (hasKey x (GetID e)) eqn:Hx;
    repeat (progress (cbn; rewrite ?Hn, ?Hd, ?Hx)); split;
    (split;
     [ intros [u' Hu']; try discriminate; repeat split; reflexivity
     | intros Hc; decompose [and] Hc; try discriminate; eauto ]).
Qed.

End Composition.

(** *** Instances of the theorems of this part *)

Lemma e5_has_identity : GetID e5 <> "".
Proof. vm_compute. discriminate. Defined.

Lemma e7_has_identity : GetID e7 <> "".
Proof. vm_compute. discriminate. Defined.

Lemma keyedByIdentity_new5 : keyedByIdentity new5.
Proof.
  intros c k v. destruct c; cbn; rewrite ?lookup_empty; try discriminate.
  intros [<- <-]%lookup_singleton_Some. split; [reflexivity|discriminate].
Defined.

Lemma keyedByIdentity_preserved_witness :
  keyedByIdentity new5 /\
  exists err u', register EntityRev OpDirty e7 new5 = Returned (err, u') /\
    keyedByIdentity u'.
Proof.
  split; [exact keyedByIdentity_new5|].
  exact (keyedByIdentity_preserved EntityRev OpDirty e7 new5 keyedByIdentity_new5).
Defined.

Lemma deleted_entries_stay_witness :
  deletedObjects deleted5 !! "5" = Some e5 /\
  exists err u', register EntityRev OpDeleted e5' deleted5 = Returned (err, u') /\
    deletedObjects u' !! "5" = Some e5.
Proof.
  assert (Hv : deletedObjects deleted5 !! "5" = Some e5) by reflexivity.
  split; [exact Hv|].
  exact (deleted_entries_stay EntityRev OpDeleted e5' deleted5 "5" e5 Hv).
Defined.

Lemma new_entries_not_replaced_witness :
  newObjects new5 !! "5" = Some e5 /\
  exists err u', register EntityRev OpNew e5' new5 = Returned (err, u') /\
    (newObjects u' !! "5" = Some e5 \/
     OpNew = OpDeleted /\ "5" = GetID e5' /\ err = None /\ newObjects u' !! "5" = None).
Proof.
  assert (Hv : newObjects new5 !! "5" = Some e5) by reflexivity.
  split; [exact Hv|].
  exact (new_entries_not_replaced EntityRev OpNew e5' new5 "5" e5 Hv).
Defined.

Lemma RegisterNew_then_RegisterDeleted_witness :
  register EntityRev OpNew e7 dirty5 =
    Returned (None, updNew <["7" := e7]> dirty5) /\
  register EntityRev OpDeleted e7 (updNew <["7" := e7]> dirty5) =
    Returned (None, dirty5).
Proof.
  assert (Hrun : register EntityRev OpNew e7 dirty5 =
                   Returned (None, updNew <["7" := e7]> dirty5))
    by (vm_compute; reflexivity).
  split; [exact Hrun|].
  exact (RegisterNew_then_RegisterDeleted EntityRev e7 dirty5 _ Hrun).
Defined.

Lemma RegisterDirty_last_reference_wins_witness :
  GetID e5 = GetID e5' /\
  register EntityRev OpDirty e5 NewUnitOfWork = Returned (None, dirty5) /\
  (exists u2, register EntityRev OpDirty e5' NewUnitOfWork = Returned (None, u2) /\
     register EntityRev OpDirty e5' dirty5 = Returned (None, u2)) /\
  register EntityRev OpDirty e5 dirty5 = Returned (None, dirty5).
Proof.
  assert (Hrun : register EntityRev OpDirty e5 NewUnitOfWork = Returned (None, dirty5))
    by (vm_compute; reflexivity).
  split; [reflexivity|]. split; [exact Hrun|].
  exact (RegisterDirty_last_reference_wins EntityRev e5 e5' NewUnitOfWork dirty5
           eq_refl Hrun).
Defined.

Lemma RegisterDeleted_first_reference_stays_witness :
  GetID e5 = GetID e5' /\ GetID e5 <> "" /\
  registeredAs dirty5 New (GetID e5) = false /\
  exists u1, register EntityRev OpDeleted e5 dirty5 = Returned (None, u1) /\
    register EntityRev OpDeleted e5' u1 = Returned (None, u1) /\
    deletedObjects u1 !! GetID e5 =
      Some (default e5 (deletedObjects dirty5 !! GetID e5)).
Proof.
  split; [reflexivity|]. split; [exact e5_has_identity|]. split; [reflexivity|].
  exact (RegisterDeleted_first_reference_stays EntityRev e5 e5' dirty5
           eq_refl e5_has_identity eq_refl).
Defined.

Lemma RegisterDirty_then_RegisterDeleted_witness :
  registeredAs (NewUnitOfWork (E := EntityStub)) New (GetID e7) = false /\
  register EntityRev OpDirty e7 NewUnitOfWork = Returned (None, dirty7) /\
  exists u2, register EntityRev OpDeleted e7 dirty7 = Returned (None, u2) /\
    newObjects u2 = newObjects (NewUnitOfWork (E := EntityStub)) /\
    dirtyObjects u2 = delete (GetID e7) (dirtyObjects NewUnitOfWork) /\
    deletedObjects u2 = <[GetID e7 := e7]> (deletedObjects NewUnitOfWork).
Proof.
  assert (Hrun : register EntityRev OpDirty e7 NewUnitOfWork = Returned (None, dirty7))
    by (vm_compute; reflexivity).
  split; [reflexivity|]. split; [exact Hrun|].
  exact (RegisterDirty_then_RegisterDeleted EntityRev e7 NewUnitOfWork dirty7
           eq_refl Hrun).
Defined.

Lemma register_follows_transition_witness :
  GetID e5 <> "" /\ stateOf new5 (GetID e5) = Some StNew /\
  exists err u', register EntityRev OpDeleted e5 new5 = Returned (err, u') /\
    (err = None /\ stateOf u' (GetID e5) = Some StAbsent) /\
    forall k : string, k <> GetID e5 -> stateOf u' k = stateOf new5 k.
Proof.
  split; [exact e5_has_identity|]. split; [reflexivity|].
  exact (register_follows_transition EntityRev OpDeleted e5 new5 StNew
           e5_has_identity eq_refl).
Defined.

Lemma registrations_of_distinct_identities_commute_witness :
  GetID e5 <> GetID e7 /\
  exists err1 err2 u1 u2 w,
    register EntityRev OpNew e5 dirty7 = Returned (err1, u1) /\
    register EntityRev OpDeleted e7 u1 = Returned (err2, w) /\
    register EntityRev OpDeleted e7 dirty7 = Returned (err2, u2) /\
    register EntityRev OpNew e5 u2 = Returned (err1, w).
Proof.
  assert (Hne : GetID e5 <> GetID e7) by (vm_compute; discriminate).
  split; [exact Hne|].
  exact (registrations_of_distinct_identities_commute EntityRev OpNew OpDeleted
           e5 e7 dirty7 Hne).
Defined.

Lemma conflict_message_names_identity_and_category_witness :
  exists err,
    register ModelInlineRev OpNew e5 deleted5 = Returned (Some err, deleted5) /\
    kindOf err = Some ConflictingState /\
    Contains (Error err) (dq +:+ GetID e5 +:+ dq) = true /\
    exists c : Category,
      registeredAs deleted5 c (GetID e5) = true /\
      Contains (Error err)
        ("already registered as " +:+ categoryName ModelInlineRev c) = true.
Proof.
  eexists. split; [vm_compute; reflexivity|]. split; [vm_compute; reflexivity|].
  refine (conflict_message_names_identity_and_category ModelInlineRev OpNew e5
            deleted5 deleted5 _ _ _); vm_compute; reflexivity.
Defined.

Lemma missing_identity_message_witness :
  GetID e0 = "" /\
  exists err, register EntityRev OpDeleted e0 new5 = Returned (Some err, new5) /\
    Contains (Error err) ("entity" +:+ " has no ID: " +:+ fmtPlusV e0) = true.
Proof.
  split; [reflexivity|].
  exact (missing_identity_message EntityRev OpDeleted e0 new5 eq_refl).
Defined.

Lemma first_registration_witness :
  GetID e7 <> "" /\
  exists u', register ModelHelperRev OpDeleted e7 NewUnitOfWork = Returned (None, u') /\
    forall c : Category,
      mapping c u' =
        match OpDeleted, c with
        | OpNew, New | OpDirty, Dirty | OpDeleted, Deleted => {[GetID e7 := e7]}
        | _, _ => ∅
        end.
Proof.
  split; [exact e7_has_identity|].
  exact (first_registration ModelHelperRev OpDeleted e7 e7_has_identity).
Defined.
